(** * OSTDS, assign1_covid/world_usage/src/main.py

    A shallow embedding of the COVID-19 case-report script: the loader, the
    cleaner, the persister, the analyzer and the entry point, together with
    the properties of the pipeline that the specification states.

    The script works on pandas DataFrames that it receives by reference and
    mutates in place, writes to a logger, reads and writes files and may
    raise.  The embedding keeps all of that: a DataFrame lives in a heap and
    is handled through its reference, and every function of main.py is a
    computation in a state-and-exception monad over a [World] that holds the
    heap, the log, the files written and the figures shown. *)

From Stdlib Require Import String Ascii List ZArith QArith Qround Bool Arith Lia.
Import ListNotations.
Close Scope Q_scope.
Local Open Scope string_scope.
Local Open Scope list_scope.

(** ** Tables *)

(** One cell of a DataFrame.  [NA] stands for every missing marker pandas
    knows (None, NaN, NaT): [dropna] and [isna] do not tell them apart.
    A finite float is kept as the rational it denotes; [Inf] is a float
    infinity, which [pd.read_csv] reads from the field inf and which is not
    a missing value.  An integer is a value of an int64 column. *)
Inductive cell : Type :=
| NA
| Str (s : string)
| Int (z : Z)
| Flt (q : Q)
| Time (ns : Z)
| Inf (positive : bool).

Definition row : Type := list cell.

(** A DataFrame, row-major: the column labels and, per row, one cell per
    label. *)
Record DataFrame : Type := mkDataFrame {
  columns : list string;
  rows : list row
}.

(** The tables pandas can build: labels are unique (read_csv renames
    duplicates) and every row has one cell per column. *)
Definition well_formed (df : DataFrame) : Prop :=
  NoDup (columns df) /\ Forall (fun r => length r = length (columns df)) (rows df).

(** [pd.DataFrame()] *)
Definition empty_frame : DataFrame := mkDataFrame [] [].

(** [df.empty]: true when either axis has length 0. *)
Definition empty (df : DataFrame) : bool :=
  match rows df, columns df with
  | [], _ => true
  | _, [] => true
  | _, _ => false
  end.

Definition isna (c : cell) : bool :=
  match c with NA => true | _ => false end.

(** [df.dropna()]: keeps the rows without a missing cell. *)
Definition dropna (df : DataFrame) : DataFrame :=
  mkDataFrame (columns df) (filter (fun r => negb (existsb isna r)) (rows df)).

(** [Index.get_loc]: the position of a label, [None] when absent. *)
Fixpoint get_loc (label : string) (cols : list string) : option nat :=
  match cols with
  | [] => None
  | c :: cs => if String.eqb c label then Some O
               else option_map S (get_loc label cs)
  end.

(** [label in df.columns] *)
Definition has_column (label : string) (df : DataFrame) : bool :=
  match get_loc label (columns df) with Some _ => true | None => false end.

(** [row[label]] for a row laid out along [cols]; [None] is KeyError. *)
Definition row_get (cols : list string) (r : row) (label : string) : option cell :=
  match get_loc label cols with
  | Some i => Some (nth i r NA)
  | None => None
  end.

(** [df[label]]: the column as a list of cells; [None] is KeyError. *)
Definition getitem (df : DataFrame) (label : string) : option (list cell) :=
  match get_loc label (columns df) with
  | Some i => Some (map (fun r => nth i r NA) (rows df))
  | None => None
  end.

Fixpoint set_nth (i : nat) (v : cell) (r : row) : row :=
  match r, i with
  | [], _ => []
  | _ :: t, O => v :: t
  | h :: t, S j => h :: set_nth j v t
  end.

Fixpoint zip_with {A B C : Type} (f : A -> B -> C) (xs : list A) (ys : list B) : list C :=
  match xs, ys with
  | x :: xs', y :: ys' => f x y :: zip_with f xs' ys'
  | _, _ => []
  end.

(** [df[label] = values], with one value per row: an existing column is
    overwritten where it stands, a new one is appended on the right. *)
Definition setitem (df : DataFrame) (label : string) (values : list cell) : DataFrame :=
  match get_loc label (columns df) with
  | Some i => mkDataFrame (columns df) (zip_with (set_nth i) values (rows df))
  | None => mkDataFrame (columns df ++ [label])
                        (zip_with (fun v r => r ++ [v]) values (rows df))
  end.

(** [series == text], element-wise: only a string cell can equal a string. *)
Definition cell_eq_str (text : string) (c : cell) : bool :=
  match c with Str s => String.eqb s text | _ => false end.

(** [df[mask]]: the rows whose mask entry is True, as a new table. *)
Fixpoint select (mask : list bool) (rs : list row) : list row :=
  match mask, rs with
  | b :: mask', r :: rs' => if b then r :: select mask' rs' else select mask' rs'
  | _, _ => []
  end.

Definition boolean_index (df : DataFrame) (mask : list bool) : DataFrame :=
  mkDataFrame (columns df) (select mask (rows df)).

Definition mem (label : string) (labels : list string) : bool :=
  existsb (String.eqb label) labels.

Fixpoint drop_cells (labels cols : list string) (r : row) : row :=
  match cols, r with
  | c :: cs, v :: vs => if mem c labels then drop_cells labels cs vs
                        else v :: drop_cells labels cs vs
  | _, _ => []
  end.

(** [df.drop(columns=labels, errors='ignore')]: labels that are absent are
    skipped silently. *)
Definition drop_columns (labels : list string) (df : DataFrame) : DataFrame :=
  mkDataFrame (filter (fun c => negb (mem c labels)) (columns df))
              (map (drop_cells labels (columns df)) (rows df)).

(** ** The world of a run *)

Inductive level : Type := DEBUG | INFO | WARNING | ERROR.

(** The exceptions the script can meet; all are subclasses of Exception. *)
Inductive exn : Type :=
| FileNotFoundError (msg : string)
| ParserError (msg : string)
| KeyError (key : string)
| ValueError (msg : string)
| TypeError (msg : string)
| OtherException (msg : string).

(** [str(e)], as the f-strings of the handlers print it. *)
Definition str_exn (e : exn) : string :=
  match e with
  | FileNotFoundError m | ParserError m | ValueError m | TypeError m
  | OtherException m => m
  | KeyError k => "'" ++ k ++ "'"
  end.

(** The four functions of main.py that the entry point calls. *)
Inductive stage : Type := Loader | Cleaner | Persister | Analyzer.

(** What the analyzer shows: the printed summary and the two figures. *)
Inductive event : Type :=
| PrintedSummary (df : DataFrame)
| Histogram (series : list cell)
| Heatmap (df : DataFrame).

Definition ref : Type := nat.

Record World : Type := mkWorld {
  heap : list DataFrame;               (* the DataFrame objects, by reference *)
  log : list (level * string);         (* what the logger received, in order *)
  files : list (string * DataFrame);   (* CSV files written, newest last *)
  shown : list event;                  (* console and figure output *)
  calls : list stage                   (* which functions were entered, in order *)
}.

Definition initial_world : World := mkWorld [] [] [] [] [].

Inductive outcome (A : Type) : Type :=
| Return (a : A)
| Raise (e : exn).
Arguments Return {A} a.
Arguments Raise {A} e.

(** A Python computation: it ends by returning or by raising, and the
    effects it had before raising stay. *)
Definition Py (A : Type) : Type := World -> outcome A * World.

Definition ret {A : Type} (a : A) : Py A := fun w => (Return a, w).

Definition raise {A : Type} (e : exn) : Py A := fun w => (Raise e, w).

Definition bind {A B : Type} (c : Py A) (k : A -> Py B) : Py B :=
  fun w => match c w with
           | (Return a, w') => k a w'
           | (Raise e, w') => (Raise e, w')
           end.

(** [try: body  except Exception as e: handler(e)] *)
Definition try_except {A : Type} (body : Py A) (handler : exn -> Py A) : Py A :=
  fun w => match body w with
           | (Return a, w') => (Return a, w')
           | (Raise e, w') => handler e w'
           end.

Notation "x <- c ;; k" := (bind c (fun x => k))
  (at level 61, c at next level, right associativity).
Notation "c ;; k" := (bind c (fun _ => k))
  (at level 61, right associativity).

Definition or_raise {A : Type} (e : exn) (o : option A) : Py A :=
  match o with Some a => ret a | None => raise e end.

(** *** Objects *)

Fixpoint update (r : ref) (df : DataFrame) (h : list DataFrame) : list DataFrame :=
  match h, r with
  | [], _ => []
  | _ :: t, O => df :: t
  | d :: t, S r' => d :: update r' df t
  end.

(** A new object and the reference to it. *)
Definition alloc (df : DataFrame) : Py ref :=
  fun w => (Return (length (heap w)),
            mkWorld (heap w ++ [df]) (log w) (files w) (shown w) (calls w)).

Definition deref (r : ref) : Py DataFrame :=
  fun w => (Return (nth r (heap w) empty_frame), w).

(** An in-place change of the object behind [r]: every holder of [r] sees it. *)
Definition store (r : ref) (df : DataFrame) : Py unit :=
  fun w => (Return tt,
            mkWorld (update r df (heap w)) (log w) (files w) (shown w) (calls w)).

Definition enter (s : stage) : Py unit :=
  fun w => (Return tt,
            mkWorld (heap w) (log w) (files w) (shown w) (calls w ++ [s])).

Definition show (e : event) : Py unit :=
  fun w => (Return tt,
            mkWorld (heap w) (log w) (files w) (shown w ++ [e]) (calls w)).

(** *** The logger *)

(** Modelled from the spec: logger.py (setup_logger) is not among the
    sources.  The spec describes it as a line-based severity logger with one
    message sink per channel and a minimum level fixed at start-up; the entry
    point asks for DEBUG, the lowest level, so every message is kept. *)
Definition logger (l : level) (msg : string) : Py unit :=
  fun w => (Return tt,
            mkWorld (heap w) (log w ++ [(l, msg)]) (files w) (shown w) (calls w)).

Definition logger_info := logger INFO.
Definition logger_warning := logger WARNING.
Definition logger_error := logger ERROR.

Definition is_error (entry : level * string) : bool :=
  match fst entry with ERROR => true | _ => false end.

(** The messages sent to the error channel, in order. *)
Definition errors (w : World) : list string :=
  map snd (filter is_error (log w)).

(** ** pandas and the operating system *)

(** What [pd.read_csv] does for a path: it parses the file into a table or
    raises (a missing file, malformed content, anything else). *)
Inductive read_result : Type :=
| ReadOk (df : DataFrame)
| ReadRaises (e : exn).

(** The spellings [pd.to_datetime] reads as NaT instead of a date, whatever
    the [errors] mode: the empty string and the members of pandas'
    nat_strings (pandas/_libs/tslibs/nattype.pyx).  None of them is among the
    markers [pd.read_csv] reads as missing, except the empty field and the
    lower- and mixed-case nan: a CSV field NaT arrives in the table as text. *)
Definition nat_strings : list string := ["NaT"; "nat"; "NAT"; "nan"; "NaN"; "NAN"].

Definition null_text (s : string) : bool :=
  String.eqb s EmptyString || mem s nat_strings.

(** [os.path.join] of a directory and a relative component. *)
Fixpoint ends_with_slash (s : string) : bool :=
  match s with
  | EmptyString => false
  | String c EmptyString => Ascii.eqb c "/"
  | String _ t => ends_with_slash t
  end.

Definition os_path_join (a b : string) : string :=
  match a with
  | EmptyString => b
  | _ => if ends_with_slash a then a ++ b else a ++ "/" ++ b
  end.

(** *** repr of a label *)

Definition single_quote : ascii := ascii_of_nat 39.
Definition double_quote : ascii := ascii_of_nat 34.
Definition backslash : ascii := ascii_of_nat 92.

Fixpoint contains (a : ascii) (s : string) : bool :=
  match s with
  | EmptyString => false
  | String c t => Ascii.eqb c a || contains a t
  end.

Definition hex_digit (n : nat) : ascii :=
  ascii_of_nat (if (n <? 10)%nat then 48 + n else 87 + n)%nat.

(** What [repr] writes for one character between quotes [quote]: the
    backslash and the quote are escaped, tab, newline and carriage return
    have their letter, any other control character is written in hex.
    Bytes above 127 are taken to encode printable characters. *)
Definition repr_char (quote c : ascii) : string :=
  let n := nat_of_ascii c in
  if Ascii.eqb c backslash || Ascii.eqb c quote then String backslash (String c EmptyString)
  else if (n =? 9)%nat then String backslash "t"
  else if (n =? 10)%nat then String backslash "n"
  else if (n =? 13)%nat then String backslash "r"
  else if ((n <? 32) || (n =? 127))%nat then
    String backslash (String "x" (String (hex_digit (n / 16)%nat)
                                    (String (hex_digit (n mod 16)%nat) EmptyString)))
  else String c EmptyString.

Fixpoint repr_chars (quote : ascii) (s : string) : string :=
  match s with
  | EmptyString => EmptyString
  | String c t => repr_char quote c ++ repr_chars quote t
  end.

(** [repr(label)]: single quotes, unless the label holds a single quote and
    no double quote. *)
Definition repr (s : string) : string :=
  let quote := if contains single_quote s && negb (contains double_quote s)
               then double_quote else single_quote in
  String quote (repr_chars quote s ++ String quote EmptyString).

(** [str(list_of_labels)] as the f-string prints it. *)
Definition tolist_str (labels : list string) : string :=
  "[" ++ String.concat ", " (map repr labels) ++ "]".

(** The number a numeric cell holds. *)
Definition number (c : cell) : option Q :=
  match c with
  | Int z => Some (inject_Z z)
  | Flt q => Some q
  | _ => None
  end.

Definition to_datetime_error : exn := ValueError "Unknown datetime string format".

(** *** Python floats *)

(** A float as an operand: not a number, finite, or an infinity. *)
Inductive pyfloat : Type :=
| NaN
| Finite (q : Q)
| Infinite (positive : bool).

(** The least magnitude that float64 rounds to an infinity: 2^1024 - 2^970. *)
Definition float_overflow : Q := inject_Z (2 ^ 1024 - 2 ^ 970).

(** A number cell as an operand of a float operation; [None] for what is no
    number.  An integer is converted exactly, as Python does for every int
    up to 2^53 in magnitude. *)
Definition as_float (c : cell) : option pyfloat :=
  match c with
  | NA => Some NaN
  | Int z => Some (Finite (inject_Z z))
  | Flt q => Some (Finite q)
  | Inf positive => Some (Infinite positive)
  | Str _ | Time _ => None
  end.

Definition of_float (f : pyfloat) : cell :=
  match f with
  | NaN => NA
  | Finite q => Flt q
  | Infinite positive => Inf positive
  end.

(** [value > 0]: [None] when Python refuses the comparison (TypeError).
    NaN compares False. *)
Definition greater_than_zero (c : cell) : option bool :=
  match c with
  | NA => Some false
  | Int z => Some (0 <? z)%Z
  | Flt q => Some (negb (Qle_bool q 0))
  | Inf positive => Some positive
  | Str _ | Time _ => None
  end.

(** The messages of the loader's three except clauses. *)
Definition file_not_found_message (file_path : string) : string :=
  "File not found at path: " ++ file_path ++ ". Please check the file path.".

Definition malformed_message : string :=
  "Error reading the CSV file. It may be malformed.".

Definition unexpected_message (e : exn) : string :=
  "An unexpected error occurred: " ++ str_exn e.

(** The message of the except clause that catches [e]: the clauses are tried
    in the order of the source. *)
Definition load_error_message (file_path : string) (e : exn) : string :=
  match e with
  | FileNotFoundError _ => file_not_found_message file_path
  | ParserError _ => malformed_message
  | _ => unexpected_message e
  end.


Section Pipeline.

(** The collaborators main.py calls but does not define. *)

(** [pd.read_csv] on the file system of the run. *)
Variable read_csv : string -> read_result.

(** [DataFrame.to_csv(path, index=False)]: [None] when the file was
    written, the exception otherwise. *)
Variable to_csv : DataFrame -> string -> option exn.

(** The date parser behind [pd.to_datetime] for one value that is neither
    missing nor already a timestamp: the parsed value, or [None] when
    pandas raises. *)
Variable convert_scalar : cell -> option cell.

(** Rounding to the nearest float64. *)
Variable rnd : Q -> Q.

(** [os.path.dirname(__file__)] *)
Variable script_dir : string.

(** *** pd.to_datetime *)

Definition to_datetime_scalar (c : cell) : option cell :=
  match c with
  | NA => Some NA
  | Time ns => Some (Time ns)
  | Str s => if null_text s then Some NA else convert_scalar c
  | _ => convert_scalar c
  end.

(** [pd.to_datetime(series)] with the default [errors='raise']: one value
    that cannot be parsed fails the whole call ([None]). *)
Fixpoint to_datetime (series : list cell) : option (list cell) :=
  match series with
  | [] => Some []
  | c :: t =>
      match to_datetime_scalar c, to_datetime t with
      | Some v, Some vs => Some (v :: vs)
      | _, _ => None
      end
  end.

(** *** clean_data *)

Definition clean_data (df : ref) : Py ref :=
  enter Cleaner ;;
  (* df.dropna(inplace=True) *)
  d <- deref df ;;
  store df (dropna d) ;;
  (* df['Last_Update'] = pd.to_datetime(df['Last_Update']) *)
  d <- deref df ;;
  series <- or_raise (KeyError "Last_Update") (getitem d "Last_Update") ;;
  parsed <- or_raise to_datetime_error (to_datetime series) ;;
  store df (setitem d "Last_Update" parsed) ;;
  d <- deref df ;;
  logger_info ("Columns in the dataset: " ++ tolist_str (columns d)) ;;
  if negb (has_column "Country_Region" d) then
    logger_error "'Country_Region' column not found." ;;
    alloc empty_frame
  else
    (* df = df[df['Country_Region'] == 'US'] *)
    country <- or_raise (KeyError "Country_Region") (getitem d "Country_Region") ;;
    df <- alloc (boolean_index d (map (cell_eq_str "US") country)) ;;
    (* df.drop(columns=['Long_', 'Lat'], errors='ignore', inplace=True) *)
    d <- deref df ;;
    store df (drop_columns ["Long_"; "Lat"] d) ;;
    ret df.

(** *** load_data *)

Definition pd_read_csv (file_path : string) : Py ref :=
  match read_csv file_path with
  | ReadOk df => alloc df
  | ReadRaises e => raise e
  end.

Definition load_data (file_path : string) : Py (option ref) :=
  enter Loader ;;
  try_except
    (data <- pd_read_csv file_path ;;
     logger_info "Data successfully loaded" ;;
     ret (Some data))
    (fun e =>
       match e with
       | FileNotFoundError _ =>
           logger_error (file_not_found_message file_path)
       | ParserError _ =>
           logger_error malformed_message
       | _ =>
           logger_error (unexpected_message e)
       end ;;
       ret None).

(** *** save_cleaned_data *)

Definition df_to_csv (df : ref) (file_path : string) : Py unit :=
  d <- deref df ;;
  match to_csv d file_path with
  | None => fun w => (Return tt,
                      mkWorld (heap w) (log w) (files w ++ [(file_path, d)])
                              (shown w) (calls w))
  | Some e => raise e
  end.

Definition save_cleaned_data (df : ref) (file_path : string) : Py unit :=
  enter Persister ;;
  try_except
    (df_to_csv df file_path ;;
     logger_info ("Cleaned data saved to " ++ file_path))
    (fun e => logger_error ("Failed to save cleaned data: " ++ str_exn e)).

(** *** analyze_data *)

(** A real number as the float nearest to it: an infinity from
    [float_overflow] on. *)
Definition round (x : Q) : pyfloat :=
  if Qle_bool float_overflow x then Infinite true
  else if Qle_bool x (- float_overflow) then Infinite false
  else Finite (rnd x).

(** [a / b] on floats, for a divisor that is greater than zero. *)
Definition divide (a b : pyfloat) : pyfloat :=
  match a, b with
  | NaN, _ | _, NaN => NaN
  | Infinite _, Infinite _ => NaN
  | Infinite positive, Finite _ => Infinite positive
  | Finite _, Infinite _ => Finite 0
  | Finite x, Finite y => round (x / y)
  end.

(** [a * 100] on floats. *)
Definition times_100 (a : pyfloat) : pyfloat :=
  match a with
  | NaN => NaN
  | Infinite positive => Infinite positive
  | Finite x => round (x * 100)
  end.

(** The lambda of analyze_data on one row:
    [(row['Deaths'] / row['Confirmed'] * 100) if row['Confirmed'] > 0 else 0].
    The condition is evaluated first; a missing Confirmed (NaN) compares
    False, text does not compare with a number.  The quotient and the
    product are floats: inf / inf is NaN, and a result beyond the float
    range is an infinity.  An integer operand is that of an int64 column,
    on which the division does not raise OverflowError; what is proved about
    the value computed is stated for integers of at most 2^53 in magnitude
    ([exact_int]), which are floats exactly. *)
Definition case_fatality_ratio (cols : list string) (r : row) : outcome cell :=
  match row_get cols r "Confirmed" with
  | None => Raise (KeyError "Confirmed")
  | Some confirmed =>
      match greater_than_zero confirmed with
      | None => Raise (TypeError "'>' not supported between these operands")
      | Some false => Return (Int 0)
      | Some true =>
          match row_get cols r "Deaths" with
          | None => Raise (KeyError "Deaths")
          | Some deaths =>
              match as_float deaths, as_float confirmed with
              | Some d, Some c => Return (of_float (times_100 (divide d c)))
              | _, _ => Raise (TypeError "unsupported operand type(s) for /")
              end
          end
      end
  end.

(** [df.apply(f, axis=1)]: [f] on every row, top to bottom; the first
    exception ends the call. *)
Fixpoint apply_rows (f : row -> outcome cell) (rs : list row) : outcome (list cell) :=
  match rs with
  | [] => Return []
  | r :: t =>
      match f r with
      | Raise e => Raise e
      | Return v =>
          match apply_rows f t with
          | Raise e => Raise e
          | Return vs => Return (v :: vs)
          end
      end
  end.

Definition lift {A : Type} (o : outcome A) : Py A :=
  fun w => (o, w).

Definition plot_case_fatality_ratio (series : list cell) : Py unit :=
  show (Histogram series).

Definition plot_correlation_matrix (cleaned_data : ref) : Py unit :=
  d <- deref cleaned_data ;;
  show (Heatmap d).

(** [df.groupby(key).describe()]: the statistics are those of the columns
    other than the key, and pandas raises ValueError when there is none.
    What the summary holds is not modelled: it stands for the table it
    describes. *)
Definition groupby_describe (d : DataFrame) (key : string) : outcome DataFrame :=
  match filter (fun label => negb (String.eqb label key)) (columns d) with
  | [] => Raise (ValueError "Cannot describe a DataFrame without columns")
  | _ :: _ => Return d
  end.

Definition analyze_data (cleaned_data : ref) : Py unit :=
  enter Analyzer ;;
  d <- deref cleaned_data ;;
  if empty d then
    logger_warning "No data available for analysis."
  else
    (if has_column "Province_State" d then
       statewise_summary <- lift (groupby_describe d "Province_State") ;;
       show (PrintedSummary statewise_summary)
     else ret tt) ;;
    if has_column "Deaths" d && has_column "Confirmed" d then
      ratio <- lift (apply_rows (case_fatality_ratio (columns d)) (rows d)) ;;
      store cleaned_data (setitem d "Case_Fatality_Ratio" ratio) ;;
      d <- deref cleaned_data ;;
      series <- or_raise (KeyError "Case_Fatality_Ratio")
                         (getitem d "Case_Fatality_Ratio") ;;
      plot_case_fatality_ratio series ;;
      plot_correlation_matrix cleaned_data
    else ret tt.

(** *** The entry point *)

Definition csv_file_path : string :=
  os_path_join (os_path_join script_dir "..") "01-01-2021 (1).csv".

Definition processed_file_path : string :=
  os_path_join (os_path_join script_dir "..") "processed_data.csv".

Definition main : Py unit :=
  logger_warning "Running analysis on single file only" ;;
  logger_info ("Attempting to load data from: " ++ csv_file_path) ;;
  df <- load_data csv_file_path ;;
  match df with
  | Some df =>
      cleaned_data <- clean_data df ;;
      d <- deref cleaned_data ;;
      if negb (empty d) then
        save_cleaned_data cleaned_data processed_file_path ;;
        analyze_data cleaned_data
      else
        logger_error "Cleaned data is empty. Exiting the script."
  | None =>
      logger_error "Data loading failed. Exiting the script."
  end.

End Pipeline.

(** ** What the cleaner computes *)

(** The caller's table once [dropna] and the timestamp assignment ran. *)
Definition converted (d0 : DataFrame) (parsed : list cell) : DataFrame :=
  setitem (dropna d0) "Last_Update" parsed.

(** The table the cleaner builds from the converted one: the US rows,
    without the coordinate columns. *)
Definition us_rows (d : DataFrame) (country : list cell) : DataFrame :=
  drop_columns ["Long_"; "Lat"] (boolean_index d (map (cell_eq_str "US") country)).

(** What the cleaner leaves behind the caller's reference, by cases on how
    far it got. *)
Definition left_behind (convert_scalar : cell -> option cell) (d0 : DataFrame) : DataFrame :=
  match getitem (dropna d0) "Last_Update" with
  | None => dropna d0
  | Some series =>
      match to_datetime convert_scalar series with
      | None => dropna d0
      | Some parsed => converted d0 parsed
      end
  end.

Definition columns_message (d : DataFrame) : level * string :=
  (INFO, ("Columns in the dataset: " ++ tolist_str (columns d))%string).

Definition no_country_message : level * string :=
  (ERROR, "'Country_Region' column not found.").


(** ** What the specification asks of a cleaned table *)

(** No row holds a missing value, in any column. *)
Definition no_missing (df : DataFrame) : bool :=
  forallb (fun r => negb (existsb isna r)) (rows df).

(** Every row's Country_Region is the text US. *)
Definition all_us (df : DataFrame) : bool :=
  forallb (fun r => match row_get (columns df) r "Country_Region" with
                    | Some c => cell_eq_str "US" c
                    | None => false
                    end) (rows df).

(** Neither coordinate column is present. *)
Definition no_coordinates (df : DataFrame) : bool :=
  negb (has_column "Long_" df) && negb (has_column "Lat" df).

Definition cleaned (df : DataFrame) : bool :=
  no_missing df && all_us df && no_coordinates df.

(** The labels of a list are pairwise different. *)
Fixpoint distinct (l : list string) : bool :=
  match l with
  | [] => true
  | x :: t => negb (mem x t) && distinct t
  end.

Definition is_time (c : cell) : bool :=
  match c with Time _ => true | _ => false end.

(** Last_Update is present and already holds timestamps. *)
Definition timestamps_parsed (df : DataFrame) : bool :=
  match getitem df "Last_Update" with
  | Some series => forallb is_time series
  | None => false
  end.

(** ** Rows of counts *)

(** An integer that Python converts to a float exactly: at most 2^53 in
    magnitude.  Every other cell passes. *)
Definition exact_int (c : cell) : bool :=
  match c with
  | Int z => (Z.abs z <=? 2 ^ 53)%Z
  | _ => true
  end.

(** A row of counts: Confirmed and Deaths are finite numbers (integers at
    most 2^53) with confirmed >= deaths >= 0. *)
Definition counts_row (cols : list string) (r : row) : Prop :=
  exists (confirmed deaths : cell) (c d : Q),
    row_get cols r "Confirmed" = Some confirmed /\ number confirmed = Some c
    /\ row_get cols r "Deaths" = Some deaths /\ number deaths = Some d
    /\ exact_int confirmed = true /\ exact_int deaths = true
    /\ (0 <= d)%Q /\ (d <= c)%Q.

Definition percentage (v : cell) : Prop :=
  exists q : Q, number v = Some q /\ (0 <= q)%Q /\ (q <= 100)%Q.

(** ** A sample environment

    Concrete collaborators and tables on which the statements below are
    evaluated. *)

Module Sample.

Definition digit (a : ascii) : option Z :=
  let n := Z.of_nat (nat_of_ascii a) in
  if ((48 <=? n) && (n <=? 57))%Z then Some (n - 48)%Z else None.

Fixpoint digits_from (acc : Z) (s : string) : option Z :=
  match s with
  | EmptyString => Some acc
  | String a t => match digit a with
                  | Some d => digits_from (10 * acc + d)%Z t
                  | None => None
                  end
  end.

(** A decimal field of exactly [n] characters starting at [i]. *)
Definition field (i n : nat) (s : string) : option Z :=
  digits_from 0%Z (substring i n s).

Definition separator (i : nat) (c : ascii) (s : string) : bool :=
  match get i s with Some a => Ascii.eqb a c | None => false end.

(** Days from 1970-01-01 to a date of the proleptic Gregorian calendar. *)
Definition days_from_civil (y m d : Z) : Z :=
  (let y' := if m <=? 2 then y - 1 else y in
   let era := y' / 400 in
   let yoe := y' - era * 400 in
   let mp := (m + 9) mod 12 in
   let doy := (153 * mp + 2) / 5 + d - 1 in
   let doe := yoe * 365 + yoe / 4 - yoe / 100 + doy in
   era * 146097 + doe - 719468)%Z.

(** A date parser for the one layout of the case reports,
    [YYYY-MM-DD HH:MM:SS], to nanoseconds since the epoch. *)
Definition parse_iso (s : string) : option Z :=
  if negb (String.length s =? 19)%nat then None
  else if negb (separator 4 "-" s && separator 7 "-" s && separator 10 " " s
                && separator 13 ":" s && separator 16 ":" s) then None
  else
    match field 0 4 s, field 5 2 s, field 8 2 s,
          field 11 2 s, field 14 2 s, field 17 2 s with
    | Some y, Some m, Some d, Some hh, Some mi, Some ss =>
        if ((1 <=? m) && (m <=? 12) && (1 <=? d) && (d <=? 31)
            && (hh <? 24) && (mi <? 60) && (ss <? 60))%Z
        then Some (((days_from_civil y m d * 86400 + hh * 3600 + mi * 60 + ss)
                    * 1000000000)%Z)
        else None
    | _, _, _, _, _, _ => None
    end.

(** Text is parsed as a date, an integer is taken as nanoseconds; anything
    else is refused. *)
Definition convert_scalar (c : cell) : option cell :=
  match c with
  | Str s => option_map Time (parse_iso s)
  | Int z => Some (Time z)
  | _ => None
  end.

(** Rounding to nine decimal places (ties upwards): a rounding that is
    monotone and exact on the integers. *)
Definition rnd (q : Q) : Q :=
  (inject_Z (Qfloor (q * 1000000000 + (1 # 2))%Q) / 1000000000)%Q.

Definition script_dir : string := "src".

Definition input_path : string := "src/../01-01-2021 (1).csv".

(** A disk that holds [df] as the input CSV and nothing else. *)
Definition disk_with (df : DataFrame) (path : string) : read_result :=
  if String.eqb path input_path then ReadOk df
  else ReadRaises (FileNotFoundError "[Errno 2] No such file or directory").

(** A disk without the input file. *)
Definition empty_disk (path : string) : read_result :=
  ReadRaises (FileNotFoundError "[Errno 2] No such file or directory").

Definition writable (_ : DataFrame) (_ : string) : option exn := None.

Definition read_only (_ : DataFrame) (_ : string) : option exn :=
  Some (OtherException "[Errno 13] Permission denied").

Definition report_columns : list string :=
  ["Province_State"; "Country_Region"; "Last_Update"; "Lat"; "Long_";
   "Confirmed"; "Deaths"].

(** Three rows of a daily report: a US row, a Canadian row, and a US row
    with a missing coordinate. *)
Definition report : DataFrame :=
  mkDataFrame report_columns
    [ [Str "Alabama"; Str "US"; Str "2021-01-02 05:22:33";
       Flt (323182 # 10000); Flt (-(863192 # 10000)); Int 100; Int 5];
      [Str "Ontario"; Str "CA"; Str "2021-01-02 05:22:33";
       Flt (512538 # 10000); Flt (-(853232 # 10000)); Int 200; Int 4];
      [Str "Alaska"; Str "US"; Str "2021-01-02 05:22:33";
       NA; Flt (-(1524044 # 10000)); Int 50; Int 1] ].

(** The same report after a first cleaning. *)
Definition report_cleaned : DataFrame :=
  mkDataFrame ["Province_State"; "Country_Region"; "Last_Update"; "Confirmed"; "Deaths"]
    [ [Str "Alabama"; Str "US"; Time 1609564953000000000; Int 100; Int 5] ].


(** A report without the Country_Region column. *)
Definition report_no_country : DataFrame :=
  mkDataFrame ["Province_State"; "Last_Update"; "Confirmed"; "Deaths"]
    [ [Str "Alabama"; Str "2021-01-02 05:22:33"; Int 100; Int 5];
      [Str "Alaska"; Str "2021-01-02 05:22:33"; NA; Int 1] ].

(** A report without the Last_Update column. *)
Definition report_no_update : DataFrame :=
  mkDataFrame ["Province_State"; "Country_Region"; "Confirmed"; "Deaths"]
    [ [Str "Alabama"; Str "US"; Int 100; Int 5];
      [Str "Alaska"; Str "US"; NA; Int 1] ].

(** A report with a timestamp that is no date. *)
Definition report_bad_date : DataFrame :=
  mkDataFrame ["Country_Region"; "Last_Update"; "Confirmed"; "Deaths"]
    [ [Str "US"; Str "yesterday"; Int 100; Int 5] ].

(** A report whose only unreadable timestamp stands in an incomplete row. *)
Definition report_bad_date_incomplete : DataFrame :=
  mkDataFrame ["Country_Region"; "Last_Update"; "Confirmed"; "Deaths"]
    [ [Str "US"; Str "2021-01-02 05:22:33"; Int 100; Int 5];
      [Str "US"; Str "yesterday"; NA; Int 4] ].

(** A clean report whose timestamps are still text. *)
Definition report_text_dates : DataFrame :=
  mkDataFrame ["Province_State"; "Country_Region"; "Last_Update"; "Confirmed"; "Deaths"]
    [ [Str "Alabama"; Str "US"; Str "2021-01-02 05:22:33"; Int 100; Int 5] ].

(** A table with the Last_Update column alone and no row. *)
Definition only_last_update : DataFrame := mkDataFrame ["Last_Update"] [].


(** A world in which [df] is the only object: the caller holds reference 0. *)
Definition holding (df : DataFrame) : World := mkWorld [df] [] [] [] [].

End Sample.

(** ** Messages and kinds of failure *)

Definition single_file_message : level * string :=
  (WARNING, "Running analysis on single file only").

Definition attempt_message (path : string) : level * string :=
  (INFO, ("Attempting to load data from: " ++ path)%string).

Definition loaded_message : level * string :=
  (INFO, "Data successfully loaded").

Definition saved_message (path : string) : level * string :=
  (INFO, ("Cleaned data saved to " ++ path)%string).

Definition save_failed_message (e : exn) : level * string :=
  (ERROR, ("Failed to save cleaned data: " ++ str_exn e)%string).

Definition empty_result_message : level * string :=
  (ERROR, "Cleaned data is empty. Exiting the script.").

Definition load_failed_message : level * string :=
  (ERROR, "Data loading failed. Exiting the script.").

(** The three except clauses of the loader. *)
Inductive failure_kind : Type := NotFound | Malformed | Unexpected.

Definition kind_of (e : exn) : failure_kind :=
  match e with
  | FileNotFoundError _ => NotFound
  | ParserError _ => Malformed
  | _ => Unexpected
  end.

(** The world in which the entry point calls the loader: the two opening
    messages are in the log. *)
Definition started (script_dir : string) (w : World) : World :=
  mkWorld (heap w)
          (log w ++ [single_file_message; attempt_message (csv_file_path script_dir)])
          (files w) (shown w) (calls w).

(** A computation is quiet when it enters no stage and writes no file. *)
Definition quiet {A : Type} (c : Py A) : Prop :=
  forall w, calls (snd (c w)) = calls w /\ files (snd (c w)) = files w.

(** ** Rows the cleaner keeps *)

(** A row without a missing value: what [dropna] keeps. *)
Definition complete (r : row) : bool := negb (existsb isna r).

(** A row whose Country_Region is the text US. *)
Definition us_row (cols : list string) (r : row) : bool :=
  match row_get cols r "Country_Region" with
  | Some c => cell_eq_str "US" c
  | None => false
  end.

(** The coordinate columns the cleaner drops. *)
Definition is_coordinate (label : string) : bool := mem label ["Long_"; "Lat"].

(** The table [clean_data] returns for an input table, or the exception it
    raises: its steps without the heap and the log. *)
Definition clean_result (convert_scalar : cell -> option cell) (d0 : DataFrame)
  : outcome DataFrame :=
  match getitem (dropna d0) "Last_Update" with
  | None => Raise (KeyError "Last_Update")
  | Some series =>
      match to_datetime convert_scalar series with
      | None => Raise to_datetime_error
      | Some parsed =>
          match getitem (converted d0 parsed) "Country_Region" with
          | None => Return empty_frame
          | Some country => Return (us_rows (converted d0 parsed) country)
          end
      end
  end.

Definition is_warning (entry : level * string) : bool :=
  match fst entry with WARNING => true | _ => false end.

(** The messages sent to the warning channel, in order. *)
Definition warnings (w : World) : list string :=
  map snd (filter is_warning (log w)).

(** The text or timestamp cells: what Python refuses to compare with or
    divide by a number. *)
Definition not_a_number (c : cell) : bool :=
  match c with Str _ | Time _ => true | _ => false end.

Definition no_data_message : level * string :=
  (WARNING, "No data available for analysis.").

(** What the analyzer has shown once the grouped summary is behind it. *)
Definition with_summary (d : DataFrame) (sh : list event) : list event :=
  sh ++ (if has_column "Province_State" d then [PrintedSummary d] else []).

(** A row on which the lambda of the analyzer meets text (or a timestamp)
    where it needs a number: in Confirmed, or in Deaths next to a positive
    Confirmed. *)
Definition text_in_counts (cols : list string) (r : row) : Prop :=
  (exists c, row_get cols r "Confirmed" = Some c /\ not_a_number c = true)
  \/ (exists c q d, row_get cols r "Confirmed" = Some c /\ number c = Some q
                    /\ (0 < q)%Q
                    /\ row_get cols r "Deaths" = Some d /\ not_a_number d = true).

(** What the cleaner logs: nothing when it raises, the columns of the
    converted table when it returns, followed by an error when
    Country_Region is absent. *)
Definition clean_log (convert_scalar : cell -> option cell) (d0 : DataFrame)
  : list (level * string) :=
  match clean_result convert_scalar d0 with
  | Raise _ => []
  | Return _ =>
      columns_message (left_behind convert_scalar d0)
      :: (if has_column "Country_Region" d0 then [] else [no_country_message])
  end.

(** What the entry point has logged when the loader returned a table. *)
Definition loaded_log (script_dir : string) (w : World) : list (level * string) :=
  log w ++ [single_file_message; attempt_message (csv_file_path script_dir);
            loaded_message].

(** ** More sample tables *)

Module Sample_more.

(** A report without a US row. *)
Definition report_canada : DataFrame :=
  mkDataFrame ["Province_State"; "Country_Region"; "Last_Update"; "Confirmed"; "Deaths"]
    [ [Str "Ontario"; Str "CA"; Str "2021-01-02 05:22:33"; Int 200; Int 4];
      [Str "Quebec"; Str "CA"; Str "2021-01-02 05:22:33"; Int 300; Int 9] ].

(** A cleaned report with text in a Confirmed cell. *)
Definition report_text_counts : DataFrame :=
  mkDataFrame ["Province_State"; "Country_Region"; "Last_Update"; "Confirmed"; "Deaths"]
    [ [Str "Alabama"; Str "US"; Time 1609564953000000000; Int 100; Int 5];
      [Str "Alaska"; Str "US"; Time 1609564953000000000; Str "n/a"; Int 1] ].

(** A cleaned report without the Deaths column. *)
Definition report_without_deaths : DataFrame :=
  mkDataFrame ["Province_State"; "Country_Region"; "Last_Update"; "Confirmed"]
    [ [Str "Alabama"; Str "US"; Time 1609564953000000000; Int 100] ].

(** A row that reports more deaths than confirmed cases. *)
Definition row_more_deaths : row :=
  [Str "Alabama"; Str "US"; Time 1609564953000000000; Int 5; Int 7].

(** A world with two tables: the caller cleans the first. *)
Definition two_tables : World :=
  mkWorld [Sample.report; Sample.report_no_country] [] [] [] [].

End Sample_more.

(** ** Sample rows with infinities *)

Module Sample_inf.


(** A report whose only row is incomplete and has a timestamp that is no
    date. *)
Definition report_one_bad_row : DataFrame :=
  mkDataFrame ["Country_Region"; "Last_Update"; "Confirmed"; "Deaths"]
    [ [Str "US"; Str "yesterday"; NA; Int 4] ].

End Sample_inf.

(** ** The grouped summary *)

(** What the summary step of the analyzer prints for a table that is not
    empty, or the exception [describe] raises. *)
Definition summary_step (d : DataFrame) : outcome (list event) :=
  if has_column "Province_State" d then
    match groupby_describe d "Province_State" with
    | Return summary => Return [PrintedSummary summary]
    | Raise e => Raise e
    end
  else Return [].

Definition nothing_to_describe : exn :=
  ValueError "Cannot describe a DataFrame without columns".

Module Sample_states.

(** A table with the Province_State column alone. *)
Definition only_states : DataFrame :=
  mkDataFrame ["Province_State"] [ [Str "Alabama"]; [Str "Alaska"] ].

End Sample_states.
(** ** Facts about tables *)

Lemma filter_all {A : Type} (p : A -> bool) (l : list A) :
  forallb p l = true -> filter p l = l.
Proof.
  induction l as [|a l IH]; simpl; intros H; [reflexivity|].
  apply andb_prop in H as [Ha Hl]. rewrite Ha, IH by assumption. reflexivity.
Qed.

Lemma set_nth_nth (i : nat) (r : row) : set_nth i (nth i r NA) r = r.
Proof.
  revert i; induction r as [|c r IH]; intros [|i]; simpl; try reflexivity.
  now rewrite IH.
Qed.

Lemma length_set_nth (i : nat) (v : cell) (r : row) :
  length (set_nth i v r) = length r.
Proof.
  revert i; induction r as [|c r IH]; intros [|i]; simpl; auto.
Qed.

Lemma nth_set_nth_other (i k : nat) (v : cell) (r : row) :
  k <> i -> nth k (set_nth i v r) NA = nth k r NA.
Proof.
  revert i k; induction r as [|c r IH]; intros [|i] [|k] H; simpl; auto;
    try congruence.
Qed.

Lemma zip_with_column (i : nat) (rs : list row) :
  zip_with (set_nth i) (map (fun r => nth i r NA) rs) rs = rs.
Proof.
  induction rs as [|r rs IH]; simpl; [reflexivity|].
  now rewrite set_nth_nth, IH.
Qed.

Lemma In_zip_with {A B C : Type} (f : A -> B -> C) (xs : list A) (ys : list B) (z : C) :
  In z (zip_with f xs ys) -> exists x y, In x xs /\ In y ys /\ z = f x y.
Proof.
  revert ys; induction xs as [|x xs IH]; intros [|y ys]; simpl; try tauto.
  intros [<-|H].
  - exists x, y; auto.
  - destruct (IH _ H) as (x' & y' & ? & ? & ?). exists x', y'; auto.
Qed.

Lemma select_map (p : row -> bool) (rs : list row) :
  select (map p rs) rs = filter p rs.
Proof.
  induction rs as [|r rs IH]; simpl; [reflexivity|].
  rewrite IH. reflexivity.
Qed.

Lemma get_loc_lt (label : string) (cols : list string) (i : nat) :
  get_loc label cols = Some i -> i < length cols.
Proof.
  revert i; induction cols as [|c cs IH]; simpl; intros i; [discriminate|].
  destruct (String.eqb c label).
  - intros [= <-]. lia.
  - destruct (get_loc label cs) as [j|]; simpl; [|discriminate].
    intros [= <-]. specialize (IH j eq_refl). lia.
Qed.

Lemma get_loc_nth_error (label : string) (cols : list string) (i : nat) :
  get_loc label cols = Some i -> nth_error cols i = Some label.
Proof.
  revert i; induction cols as [|c cs IH]; simpl; intros i; [discriminate|].
  destruct (String.eqb_spec c label) as [->|_].
  - now intros [= <-].
  - destruct (get_loc label cs) as [j|]; simpl; [|discriminate].
    intros [= <-]. simpl. now apply IH.
Qed.

Lemma get_loc_inj (l1 l2 : string) (cols : list string) (i : nat) :
  get_loc l1 cols = Some i -> get_loc l2 cols = Some i -> l1 = l2.
Proof.
  intros H1 H2. apply get_loc_nth_error in H1, H2. congruence.
Qed.


(** Dropping columns leaves the cells under the other labels where the
    labels still find them. *)
Lemma row_get_drop_cells (labels cols : list string) (r : row) (l : string) :
  length r = length cols ->
  mem l labels = false ->
  row_get (filter (fun c => negb (mem c labels)) cols) (drop_cells labels cols r) l
  = row_get cols r l.
Proof.
  intros Hlen Hl. revert r Hlen.
  induction cols as [|c cs IH]; intros [|v vs] Hlen; simpl in *; try discriminate;
    [reflexivity|].
  injection Hlen as Hlen. specialize (IH vs Hlen).
  unfold row_get in *; simpl.
  destruct (mem c labels) eqn:Hc; simpl.
  - destruct (String.eqb_spec c l) as [->|_]; [congruence|].
    rewrite IH. destruct (get_loc l cs); reflexivity.
  - destruct (String.eqb c l); [reflexivity|].
    destruct (get_loc l (filter _ cs)), (get_loc l cs); simpl in *; congruence.
Qed.

Lemma drop_cells_none (labels cols : list string) (r : row) :
  length r = length cols ->
  forallb (fun c => negb (mem c labels)) cols = true ->
  drop_cells labels cols r = r.
Proof.
  revert r; induction cols as [|c cs IH]; intros [|v vs]; simpl; try discriminate;
    auto.
  intros [= Hlen] H. apply andb_prop in H as [Hc Hcs].
  apply negb_true_iff in Hc. rewrite Hc, IH by assumption. reflexivity.
Qed.

Lemma columns_setitem_existing (df : DataFrame) (l : string) (vs series : list cell) :
  getitem df l = Some series -> columns (setitem df l vs) = columns df.
Proof.
  unfold getitem, setitem. destruct (get_loc l (columns df)); [reflexivity|discriminate].
Qed.

Lemma has_column_getitem (df : DataFrame) (l : string) :
  has_column l df = false <-> getitem df l = None.
Proof.
  unfold has_column, getitem. destruct (get_loc l (columns df)); split; congruence.
Qed.

Lemma columns_dropna (df : DataFrame) : columns (dropna df) = columns df.
Proof. reflexivity. Qed.

(** With a column besides the key there is something to describe. *)
Lemma groupby_describe_other (d : DataFrame) (key other : string) :
  has_column other d = true -> other <> key -> groupby_describe d key = Return d.
Proof.
  unfold has_column, groupby_describe. intros Hhas Hne.
  destruct (get_loc other (columns d)) as [i|] eqn:Hi; [|discriminate].
  assert (Hin : In other (filter (fun label => negb (String.eqb label key)) (columns d))).
  { apply filter_In. split.
    - apply get_loc_nth_error in Hi. eapply nth_error_In; eassumption.
    - apply negb_true_iff. now apply String.eqb_neq. }
  destruct (filter _ (columns d)); [contradiction|reflexivity].
Qed.

(** ** Facts about the heap *)

Lemma nth_update (r : ref) (df : DataFrame) (h : list DataFrame) :
  r < length h -> nth r (update r df h) empty_frame = df.
Proof.
  revert r; induction h as [|d h IH]; intros [|r] H; simpl in *; try lia; auto.
  apply IH. lia.
Qed.

Lemma update_update (r : ref) (d1 d2 : DataFrame) (h : list DataFrame) :
  update r d2 (update r d1 h) = update r d2 h.
Proof.
  revert r; induction h as [|d h IH]; intros [|r]; simpl; auto. now rewrite IH.
Qed.

Lemma length_update (r : ref) (df : DataFrame) (h : list DataFrame) :
  length (update r df h) = length h.
Proof.
  revert r; induction h as [|d h IH]; intros [|r]; simpl; auto.
Qed.

Lemma nth_fresh (h : list DataFrame) (df : DataFrame) :
  nth (length h) (h ++ [df]) empty_frame = df.
Proof. rewrite app_nth2, Nat.sub_diag by lia. reflexivity. Qed.

Lemma nth_fresh_after (h : list DataFrame) (a b df : DataFrame) :
  nth (length (h ++ [a])) ((h ++ [b]) ++ [df]) empty_frame = df.
Proof.
  replace (length (h ++ [a])) with (length (h ++ [b])) by now rewrite !length_app.
  apply nth_fresh.
Qed.

Lemma nth_old (r : ref) (h : list DataFrame) (df : DataFrame) :
  r < length h -> nth r (h ++ [df]) empty_frame = nth r h empty_frame.
Proof. intros H. now rewrite app_nth1. Qed.

Lemma update_fresh (h : list DataFrame) (d1 d2 : DataFrame) :
  update (length h) d2 (h ++ [d1]) = h ++ [d2].
Proof. induction h as [|d h IH]; simpl; [reflexivity|]. now rewrite IH. Qed.

(** ** Running a computation *)

(** The equations of the monad's primitives, as rewrite rules: a run is
    unfolded one statement at a time. *)
Lemma run_ret {A B : Type} (a : A) (k : A -> Py B) (w : World) :
  bind (ret a) k w = k a w.
Proof. reflexivity. Qed.

Lemma run_raise {A B : Type} (e : exn) (k : A -> Py B) (w : World) :
  bind (raise e) k w = (Raise e, w).
Proof. reflexivity. Qed.

Lemma run_bind {A B C : Type} (c : Py A) (k : A -> Py B) (k' : B -> Py C) (w : World) :
  bind (bind c k) k' w = bind c (fun a => bind (k a) k') w.
Proof. unfold bind. destruct (c w) as [[a|e] w']; reflexivity. Qed.

Lemma run_enter {B : Type} (s : stage) (k : unit -> Py B) (w : World) :
  bind (enter s) k w =
  k tt (mkWorld (heap w) (log w) (files w) (shown w) (calls w ++ [s])).
Proof. reflexivity. Qed.

Lemma run_deref {B : Type} (r : ref) (k : DataFrame -> Py B) (w : World) :
  bind (deref r) k w = k (nth r (heap w) empty_frame) w.
Proof. reflexivity. Qed.

Lemma run_store {B : Type} (r : ref) (df : DataFrame) (k : unit -> Py B) (w : World) :
  bind (store r df) k w =
  k tt (mkWorld (update r df (heap w)) (log w) (files w) (shown w) (calls w)).
Proof. reflexivity. Qed.

Lemma run_alloc {B : Type} (df : DataFrame) (k : ref -> Py B) (w : World) :
  bind (alloc df) k w =
  k (length (heap w)) (mkWorld (heap w ++ [df]) (log w) (files w) (shown w) (calls w)).
Proof. reflexivity. Qed.

Lemma run_logger {B : Type} (l : level) (msg : string) (k : unit -> Py B) (w : World) :
  bind (logger l msg) k w =
  k tt (mkWorld (heap w) (log w ++ [(l, msg)]) (files w) (shown w) (calls w)).
Proof. reflexivity. Qed.

Lemma run_show {B : Type} (e : event) (k : unit -> Py B) (w : World) :
  bind (show e) k w =
  k tt (mkWorld (heap w) (log w) (files w) (shown w ++ [e]) (calls w)).
Proof. reflexivity. Qed.

Lemma run_or_raise_some {A B : Type} (e : exn) (a : A) (k : A -> Py B) (w : World) :
  bind (or_raise e (Some a)) k w = k a w.
Proof. reflexivity. Qed.

Lemma run_or_raise_none {A B : Type} (e : exn) (k : A -> Py B) (w : World) :
  bind (or_raise e None) k w = (Raise e, w).
Proof. reflexivity. Qed.

Create Rewrite HintDb py.
Lemma run_lift_return {A B : Type} (a : A) (k : A -> Py B) (w : World) :
  bind (lift (Return a)) k w = k a w.
Proof. reflexivity. Qed.

Lemma run_lift_raise {A B : Type} (e : exn) (k : A -> Py B) (w : World) :
  bind (lift (@Raise A e)) k w = (Raise e, w).
Proof. reflexivity. Qed.

#[local] Hint Rewrite @run_lift_return @run_lift_raise : py.
#[local] Hint Rewrite @run_ret @run_raise @run_bind @run_enter @run_deref @run_store
  @run_alloc @run_logger @run_show @run_or_raise_some @run_or_raise_none : py.

Ltac step :=
  unfold logger_info, logger_warning, logger_error;
  autorewrite with py; cbn [heap log files shown calls].

(** ** The cleaner, step by step *)

Section Cleaner_run.

Variable convert_scalar : cell -> option cell.

(** One run of [clean_data] on a live reference, by cases on what the
    table holds. *)
Lemma clean_data_run (df : ref) (w : World) :
  df < length (heap w) ->
  let d0 := nth df (heap w) empty_frame in
  clean_data convert_scalar df w =
  match getitem (dropna d0) "Last_Update" with
  | None =>
      (Raise (KeyError "Last_Update"),
       mkWorld (update df (dropna d0) (heap w)) (log w) (files w) (shown w)
               (calls w ++ [Cleaner]))
  | Some series =>
      match to_datetime convert_scalar series with
      | None =>
          (Raise to_datetime_error,
           mkWorld (update df (dropna d0) (heap w)) (log w) (files w) (shown w)
                   (calls w ++ [Cleaner]))
      | Some parsed =>
          let d := converted d0 parsed in
          match getitem d "Country_Region" with
          | None =>
              (Return (length (heap w)),
               mkWorld (update df d (heap w) ++ [empty_frame])
                       (log w ++ [columns_message d; no_country_message])
                       (files w) (shown w) (calls w ++ [Cleaner]))
          | Some country =>
              (Return (length (heap w)),
               mkWorld (update df d (heap w) ++ [us_rows d country])
                       (log w ++ [columns_message d])
                       (files w) (shown w) (calls w ++ [Cleaner]))
          end
      end
  end.
Proof.
  intros Hlive d0. unfold clean_data. step.
  rewrite nth_update by assumption. fold d0.
  destruct (getitem (dropna d0) "Last_Update") as [series|]; step; [|reflexivity].
  destruct (to_datetime convert_scalar series) as [parsed|]; step; [|reflexivity].
  rewrite update_update, nth_update by assumption.
  fold (converted d0 parsed). set (d := converted d0 parsed).
  unfold has_column, getitem.
  destruct (get_loc "Country_Region" (columns d)) as [i|]; cbn [negb]; step.
  - rewrite nth_fresh, update_fresh, length_update. reflexivity.
  - unfold alloc; cbn [heap log files shown calls].
    rewrite length_update, <- app_assoc. reflexivity.
Qed.

End Cleaner_run.

(** ** The cleaner *)

Section Cleaner_properties.

Variable convert_scalar : cell -> option cell.

(** The rows of the converted table are the complete rows of the input
    with one cell overwritten: they keep their length. *)
Lemma converted_rows (d0 : DataFrame) (series parsed : list cell) (i : nat) (r : row) :
  get_loc "Last_Update" (columns d0) = Some i ->
  In r (rows (converted d0 parsed)) ->
  exists p r1, In p parsed /\ In r1 (rows d0) /\ existsb isna r1 = false
               /\ r = set_nth i p r1.
Proof.
  unfold converted, setitem. rewrite columns_dropna. intros ->. cbn [rows].
  intros H. apply In_zip_with in H as (p & r1 & Hp & Hr1 & ->).
  unfold dropna in Hr1; cbn [rows] in Hr1. apply filter_In in Hr1 as [Hin Hna].
  apply negb_true_iff in Hna. eauto 6.
Qed.




Lemma columns_converted (d0 : DataFrame) (series parsed : list cell) :
  getitem (dropna d0) "Last_Update" = Some series ->
  columns (converted d0 parsed) = columns d0.
Proof. intros H. unfold converted. now rewrite (columns_setitem_existing _ _ _ _ H). Qed.





(** *** Cleaning a table that is already clean *)

Lemma dropna_clean (d : DataFrame) : no_missing d = true -> dropna d = d.
Proof.
  unfold no_missing, dropna. intros H. rewrite filter_all by assumption.
  now destruct d.
Qed.

(** Timestamps go through [pd.to_datetime] unchanged. *)
Lemma to_datetime_parsed (series : list cell) :
  forallb is_time series = true -> to_datetime convert_scalar series = Some series.
Proof.
  induction series as [|c t IH]; simpl; [reflexivity|].
  intros H. apply andb_prop in H as [Hc Ht]. rewrite IH by assumption.
  destruct c; try discriminate. reflexivity.
Qed.

Lemma setitem_same (d : DataFrame) (label : string) (series : list cell) :
  getitem d label = Some series -> setitem d label series = d.
Proof.
  unfold getitem, setitem. destruct (get_loc label (columns d)); [|discriminate].
  intros [= <-]. rewrite zip_with_column. now destruct d.
Qed.

Lemma all_us_rows (d : DataFrame) (j : nat) :
  get_loc "Country_Region" (columns d) = Some j ->
  all_us d = true ->
  forallb (fun r => cell_eq_str "US" (nth j r NA)) (rows d) = true.
Proof.
  unfold all_us, row_get. intros ->. intros H. exact H.
Qed.

Lemma get_loc_none_neq (label : string) (cols : list string) :
  get_loc label cols = None ->
  forallb (fun c => negb (String.eqb c label)) cols = true.
Proof.
  induction cols as [|c cs IH]; simpl; [reflexivity|].
  destruct (String.eqb c label); [discriminate|].
  destruct (get_loc label cs); [discriminate|]. auto.
Qed.

Lemma drop_columns_absent (d : DataFrame) :
  Forall (fun r => length r = length (columns d)) (rows d) ->
  no_coordinates d = true ->
  drop_columns ["Long_"; "Lat"] d = d.
Proof.
  intros Hrect H. unfold no_coordinates, has_column in H.
  apply andb_prop in H as [Hlong Hlat].
  destruct (get_loc "Long_" (columns d)) eqn:E1; [discriminate|].
  destruct (get_loc "Lat" (columns d)) eqn:E2; [discriminate|].
  assert (Hkeep : forallb (fun c => negb (mem c ["Long_"; "Lat"])) (columns d) = true).
  { apply get_loc_none_neq in E1, E2.
    rewrite forallb_forall in *. intros c Hc. specialize (E1 c Hc). specialize (E2 c Hc).
    apply negb_true_iff in E1, E2. unfold mem; simpl. now rewrite E1, E2. }
  unfold drop_columns. rewrite filter_all by assumption.
  replace (map (drop_cells ["Long_"; "Lat"] (columns d)) (rows d)) with (rows d);
    [now destruct d|].
  rewrite <- (map_id (rows d)) at 1. apply map_ext_in. intros r Hr.
  symmetry. apply drop_cells_none; [|assumption].
  exact (proj1 (Forall_forall _ _) Hrect r Hr).
Qed.

Lemma update_same (r : ref) (h : list DataFrame) :
  update r (nth r h empty_frame) h = h.
Proof.
  revert r; induction h as [|d h IH]; intros [|r]; simpl; auto. now rewrite IH.
Qed.

(** C4 (as amended).  Cleaning is idempotent on a table that holds both
    the Last_Update column, already parsed into timestamps, and the
    Country_Region column, and that is clean in the three ways the
    specification lists: the call returns a new table equal to its input
    and leaves the caller's table as it was. *)
Theorem clean_data_idempotent (df : ref) (w : World) :
  df < length (heap w) ->
  let d0 := nth df (heap w) empty_frame in
  well_formed d0 ->
  cleaned d0 = true ->
  timestamps_parsed d0 = true ->
  has_column "Country_Region" d0 = true ->
  clean_data convert_scalar df w =
  (Return (length (heap w)),
   mkWorld (heap w ++ [d0]) (log w ++ [columns_message d0]) (files w) (shown w)
           (calls w ++ [Cleaner])).
Proof.
  intros Hlive d0 [_ Hrect] Hclean Htime Hcountry.
  unfold cleaned in Hclean.
  apply andb_prop in Hclean as [Hclean Hcoord].
  apply andb_prop in Hclean as [Hmiss Hus].
  rewrite clean_data_run by assumption. cbv zeta. fold d0.
  rewrite (dropna_clean d0 Hmiss).
  unfold timestamps_parsed in Htime.
  destruct (getitem d0 "Last_Update") as [series|] eqn:Hseries; [|discriminate].
  rewrite (to_datetime_parsed series Htime).
  unfold converted. rewrite (dropna_clean d0 Hmiss), (setitem_same d0 _ _ Hseries).
  unfold has_column in Hcountry. unfold getitem.
  destruct (get_loc "Country_Region" (columns d0)) as [j|] eqn:Hj; [|discriminate].
  unfold us_rows, boolean_index. rewrite map_map, select_map.
  rewrite filter_all by exact (all_us_rows d0 j Hj Hus).
  replace (mkDataFrame (columns d0) (rows d0)) with d0 by now destruct d0.
  rewrite (drop_columns_absent d0 Hrect Hcoord).
  unfold d0 at 1. rewrite update_same. reflexivity.
Qed.

(** *** Failures *)

(** C7 (as amended).  When Last_Update exists but, once the rows with a
    missing value are dropped, cannot be parsed, the cleaner raises the
    parser's exception: it returns nothing, builds no table and logs
    nothing. *)
Theorem clean_data_propagates_parse_error (df : ref) (w : World) (series : list cell) :
  df < length (heap w) ->
  let d0 := nth df (heap w) empty_frame in
  getitem (dropna d0) "Last_Update" = Some series ->
  to_datetime convert_scalar series = None ->
  clean_data convert_scalar df w =
  (Raise to_datetime_error,
   mkWorld (update df (dropna d0) (heap w)) (log w) (files w) (shown w)
           (calls w ++ [Cleaner])).
Proof.
  intros Hlive d0 Hseries Hparse.
  rewrite clean_data_run by assumption. cbv zeta. fold d0.
  now rewrite Hseries, Hparse.
Qed.

(** C9.  The cleaner works on the caller's table itself: after the call
    the object behind the caller's reference is the input without its
    incomplete rows and, when the timestamps parsed, with Last_Update
    converted.  On the path where Country_Region is absent the call returns
    a new, empty table and the caller's table has been rewritten all the
    same. *)
Theorem clean_data_mutates_input (df : ref) (w : World) :
  df < length (heap w) ->
  let d0 := nth df (heap w) empty_frame in
  let w' := snd (clean_data convert_scalar df w) in
  nth df (heap w') empty_frame = left_behind convert_scalar d0
  /\ (forall series parsed,
        getitem (dropna d0) "Last_Update" = Some series ->
        to_datetime convert_scalar series = Some parsed ->
        has_column "Country_Region" d0 = false ->
        fst (clean_data convert_scalar df w) = Return (length (heap w))
        /\ nth (length (heap w)) (heap w') empty_frame = empty_frame
        /\ nth df (heap w') empty_frame = converted d0 parsed).
Proof.
  intros Hlive d0 w'. unfold w', left_behind.
  rewrite clean_data_run by assumption. cbv zeta. fold d0.
  assert (Hold : forall d x, nth df (update df d (heap w) ++ [x]) empty_frame = d).
  { intros d x. rewrite nth_old by now rewrite length_update.
    now apply nth_update. }
  split.
  - destruct (getitem (dropna d0) "Last_Update") as [series|]; cbn [snd heap];
      [|now apply nth_update].
    destruct (to_datetime convert_scalar series) as [parsed|]; cbn [snd heap];
      [|now apply nth_update].
    destruct (getitem (converted d0 parsed) "Country_Region"); cbn [snd heap];
      apply Hold.
  - intros series parsed Hseries Hparse Hcountry. rewrite Hseries, Hparse.
    assert (Hnone : getitem (converted d0 parsed) "Country_Region" = None).
    { apply has_column_getitem. unfold has_column in *.
      now rewrite (columns_converted d0 series parsed Hseries). }
    rewrite Hnone. cbn [fst snd heap]. repeat split.
    + rewrite <- (length_update df (converted d0 parsed) (heap w)). apply nth_fresh.
    + apply Hold.
Qed.

(** The cleaner on a table without Last_Update: KeyError, raised by the
    column access that precedes the Country_Region test. *)
Lemma clean_data_without_last_update (df : ref) (w : World) :
  df < length (heap w) ->
  let d0 := nth df (heap w) empty_frame in
  has_column "Last_Update" d0 = false ->
  clean_data convert_scalar df w =
  (Raise (KeyError "Last_Update"),
   mkWorld (update df (dropna d0) (heap w)) (log w) (files w) (shown w)
           (calls w ++ [Cleaner])).
Proof.
  intros Hlive d0 Hno. rewrite clean_data_run by assumption. cbv zeta. fold d0.
  replace (getitem (dropna d0) "Last_Update") with (@None (list cell)); [reflexivity|].
  symmetry. apply has_column_getitem. exact Hno.
Qed.

End Cleaner_properties.

(** ** Quiet computations *)

Lemma quiet_ret {A : Type} (a : A) : quiet (ret a).
Proof. now intros w. Qed.

Lemma quiet_raise {A : Type} (e : exn) : quiet (@raise A e).
Proof. now intros w. Qed.

Lemma quiet_bind {A B : Type} (c : Py A) (k : A -> Py B) :
  quiet c -> (forall a, quiet (k a)) -> quiet (bind c k).
Proof.
  intros Hc Hk w. unfold bind. specialize (Hc w).
  destruct (c w) as [[a|e] w1]; cbn [snd] in *; [|assumption].
  destruct (Hk a w1) as [-> ->]. assumption.
Qed.

Lemma quiet_deref (r : ref) : quiet (deref r).
Proof. now intros w. Qed.

Lemma quiet_store (r : ref) (df : DataFrame) : quiet (store r df).
Proof. now intros w. Qed.

Lemma quiet_logger (l : level) (msg : string) : quiet (logger l msg).
Proof. now intros w. Qed.

Lemma quiet_show (e : event) : quiet (show e).
Proof. now intros w. Qed.

Lemma quiet_or_raise {A : Type} (e : exn) (o : option A) : quiet (or_raise e o).
Proof. destruct o; [apply quiet_ret | apply quiet_raise]. Qed.

Lemma quiet_lift {A : Type} (o : outcome A) : quiet (lift o).
Proof. now intros w. Qed.

Create HintDb quiet.
#[local] Hint Resolve quiet_ret quiet_raise quiet_deref quiet_store quiet_logger
  quiet_show quiet_or_raise quiet_lift : quiet.

Ltac quiet_steps :=
  repeat first
    [ apply quiet_bind; [|intros]
    | match goal with |- quiet (if ?b then _ else _) => destruct b end
    | solve [auto with quiet] ].

(** ** The loader, the persister and the entry point *)

Lemma errors_app (w : World) (h : list DataFrame) (l : list (level * string))
      (f : list (string * DataFrame)) (s : list event) (c : list stage) :
  errors (mkWorld h (log w ++ l) f s c) = errors w ++ map snd (filter is_error l).
Proof. unfold errors; cbn [log]. now rewrite filter_app, map_app. Qed.

Section Run.

Variable read_csv : string -> read_result.
Variable to_csv : DataFrame -> string -> option exn.
Variable convert_scalar : cell -> option cell.
Variable rnd : Q -> Q.
Variable script_dir : string.

Lemma load_data_run (path : string) (w : World) :
  load_data read_csv path w =
  match read_csv path with
  | ReadOk d =>
      (Return (Some (length (heap w))),
       mkWorld (heap w ++ [d]) (log w ++ [loaded_message]) (files w) (shown w)
               (calls w ++ [Loader]))
  | ReadRaises e =>
      (Return None,
       mkWorld (heap w) (log w ++ [(ERROR, load_error_message path e)]) (files w)
               (shown w) (calls w ++ [Loader]))
  end.
Proof.
  unfold load_data. step. unfold try_except, pd_read_csv.
  destruct (read_csv path) as [d|e]; step; [reflexivity|].
  destruct e; step; reflexivity.
Qed.

Lemma save_cleaned_data_run (df : ref) (path : string) (w : World) :
  save_cleaned_data to_csv df path w =
  match to_csv (nth df (heap w) empty_frame) path with
  | None =>
      (Return tt,
       mkWorld (heap w) (log w ++ [saved_message path])
               (files w ++ [(path, nth df (heap w) empty_frame)]) (shown w)
               (calls w ++ [Persister]))
  | Some e =>
      (Return tt,
       mkWorld (heap w) (log w ++ [save_failed_message e]) (files w) (shown w)
               (calls w ++ [Persister]))
  end.
Proof.
  unfold save_cleaned_data. step. unfold try_except, df_to_csv. step.
  destruct (to_csv (nth df (heap w) empty_frame) path) as [e|]; reflexivity.
Qed.

(** The analyzer writes no file and calls none of the other stages,
    however it ends. *)
Lemma analyze_data_frame (df : ref) (w : World) :
  let w' := snd (analyze_data rnd df w) in
  calls w' = calls w ++ [Analyzer] /\ files w' = files w.
Proof.
  intros w'. unfold w', analyze_data. rewrite run_enter.
  match goal with |- context [snd (?c ?w1)] =>
    assert (H : quiet c) by
      (unfold logger_warning, plot_case_fatality_ratio, plot_correlation_matrix;
       quiet_steps);
    exact (H w1)
  end.
Qed.

(** The entry point, stage by stage. *)
Lemma main_run (w : World) :
  main read_csv to_csv convert_scalar rnd script_dir w =
  match load_data read_csv (csv_file_path script_dir) (started script_dir w) with
  | (Return (Some df), w1) =>
      match clean_data convert_scalar df w1 with
      | (Return cleaned_data, w2) =>
          if negb (empty (nth cleaned_data (heap w2) empty_frame)) then
            analyze_data rnd cleaned_data
              (snd (save_cleaned_data to_csv cleaned_data
                      (processed_file_path script_dir) w2))
          else
            (Return tt,
             mkWorld (heap w2) (log w2 ++ [empty_result_message]) (files w2)
                     (shown w2) (calls w2))
      | (Raise e, w2) => (Raise e, w2)
      end
  | (Return None, w1) =>
      (Return tt,
       mkWorld (heap w1) (log w1 ++ [load_failed_message]) (files w1) (shown w1)
               (calls w1))
  | (Raise e, w1) => (Raise e, w1)
  end.
Proof.
  unfold main. step. rewrite <- app_assoc. cbn [app]. fold (started script_dir w).
  unfold bind at 1.
  destruct (load_data read_csv _ _) as [[[df|]|e] w1]; [|reflexivity|reflexivity].
  unfold bind at 1.
  destruct (clean_data convert_scalar df w1) as [[c|e] w2]; [|reflexivity].
  step. destruct (empty _); cbn [negb]; [reflexivity|].
  unfold bind at 1. rewrite save_cleaned_data_run.
  destruct (to_csv _ _); reflexivity.
Qed.

(** The loader and the cleaner in a row, on a file that parses. *)
Lemma load_then_clean (w : World) (d0 : DataFrame) :
  read_csv (csv_file_path script_dir) = ReadOk d0 ->
  exists w1,
    load_data read_csv (csv_file_path script_dir) (started script_dir w)
    = (Return (Some (length (heap w))), w1)
    /\ length (heap w) < length (heap w1)
    /\ nth (length (heap w)) (heap w1) empty_frame = d0
    /\ heap w1 = heap w ++ [d0]
    /\ log w1 = log (started script_dir w) ++ [loaded_message]
    /\ files w1 = files w /\ shown w1 = shown w
    /\ calls w1 = calls w ++ [Loader].
Proof.
  intros Hread. rewrite load_data_run, Hread. eexists; split; [reflexivity|].
  cbn [heap log files shown calls started].
  rewrite nth_fresh, length_app. cbn. repeat split; lia.
Qed.

(** C5.  The loader always returns: the reference to the parsed table,
    with an informational message logged, or no data, with one error
    message logged.  Whatever [pd.read_csv] raises is caught, and the
    messages of the three except clauses (file not found, malformed
    content, anything else) differ from one another. *)
Theorem load_data_never_raises (path : string) (w : World) :
  (exists result w',
      load_data read_csv path w = (Return result, w')
      /\ match read_csv path with
         | ReadOk d =>
             result = Some (length (heap w))
             /\ nth (length (heap w)) (heap w') empty_frame = d
             /\ log w' = log w ++ [loaded_message]
         | ReadRaises e =>
             result = None
             /\ heap w' = heap w
             /\ log w' = log w ++ [(ERROR, load_error_message path e)]
         end)
  /\ (forall e1 e2 : exn,
        load_error_message path e1 = load_error_message path e2 ->
        kind_of e1 = kind_of e2).
Proof.
  split.
  - rewrite load_data_run. destruct (read_csv path) as [d|e].
    + do 2 eexists. split; [reflexivity|]. cbn [heap log].
      rewrite nth_fresh. auto.
    + do 2 eexists. split; [reflexivity|]. cbn [heap log]. auto.
  - intros e1 e2.
    destruct e1, e2; cbn [load_error_message kind_of]; try reflexivity;
      unfold file_not_found_message, malformed_message, unexpected_message;
      intros H; discriminate H.
Qed.

(** C6.  The persister always returns normally: a failed write is logged
    on the error channel and leaves no file.  In the entry point the
    analyzer is called after the persister whether or not the write
    succeeded. *)
Theorem save_cleaned_data_never_raises :
  (forall (df : ref) (path : string) (w : World),
      exists w',
        save_cleaned_data to_csv df path w = (Return tt, w')
        /\ heap w' = heap w
        /\ calls w' = calls w ++ [Persister]
        /\ match to_csv (nth df (heap w) empty_frame) path with
           | None =>
               log w' = log w ++ [saved_message path]
               /\ files w' = files w ++ [(path, nth df (heap w) empty_frame)]
           | Some e =>
               log w' = log w ++ [save_failed_message e]
               /\ files w' = files w
           end)
  /\ (forall (w w1 w2 : World) (df cleaned_data : ref),
        load_data read_csv (csv_file_path script_dir) (started script_dir w)
        = (Return (Some df), w1) ->
        clean_data convert_scalar df w1 = (Return cleaned_data, w2) ->
        empty (nth cleaned_data (heap w2) empty_frame) = false ->
        let w3 := snd (save_cleaned_data to_csv cleaned_data
                         (processed_file_path script_dir) w2) in
        main read_csv to_csv convert_scalar rnd script_dir w
        = analyze_data rnd cleaned_data w3
        /\ calls (snd (main read_csv to_csv convert_scalar rnd script_dir w))
           = calls w2 ++ [Persister; Analyzer]).
Proof.
  split.
  - intros df path w. rewrite save_cleaned_data_run.
    destruct (to_csv _ _) as [e|]; eexists; (split; [reflexivity|]);
      cbn [heap log files calls]; auto.
  - intros w w1 w2 df c Hload Hclean Hfull w3.
    rewrite main_run, Hload, Hclean, Hfull. cbn [negb]. split; [reflexivity|].
    destruct (analyze_data_frame c w3) as [Hcalls _].
    unfold w3 in *. cbv zeta in Hcalls. rewrite Hcalls, save_cleaned_data_run.
    destruct (to_csv _ _); cbn [snd calls]; now rewrite <- app_assoc.
Qed.

(** C8.  When the loader returns no data, the entry point logs the
    failure and returns: the loader is the only stage entered, and no file
    is written. *)
Theorem main_stops_when_loading_fails (w w1 : World) :
  load_data read_csv (csv_file_path script_dir) (started script_dir w)
  = (Return None, w1) ->
  let w' := snd (main read_csv to_csv convert_scalar rnd script_dir w) in
  fst (main read_csv to_csv convert_scalar rnd script_dir w) = Return tt
  /\ calls w' = calls w ++ [Loader]
  /\ files w' = files w
  /\ heap w' = heap w
  /\ shown w' = shown w
  /\ exists e, read_csv (csv_file_path script_dir) = ReadRaises e
               /\ errors w' = errors w
                              ++ [load_error_message (csv_file_path script_dir) e;
                                  snd load_failed_message].
Proof.
  intros Hload w'. unfold w'. rewrite main_run, Hload. cbn [fst snd].
  rewrite load_data_run in Hload.
  destruct (read_csv (csv_file_path script_dir)) as [d|e]; [discriminate|].
  injection Hload as <-. cbn [heap log files shown calls started].
  repeat split. exists e. split; [reflexivity|].
  rewrite <- !app_assoc. rewrite errors_app. reflexivity.
Qed.

(** C3 (as amended).  On an input without Country_Region that is
    otherwise processable, the cleaner returns an empty table, neither the
    persister nor the analyzer is called and nothing is written or shown;
    two errors are logged during the run, one by the cleaner and one by
    the entry point when it finds the result empty. *)
Theorem main_without_country_region (w : World) (d0 : DataFrame)
        (series parsed : list cell) :
  read_csv (csv_file_path script_dir) = ReadOk d0 ->
  getitem (dropna d0) "Last_Update" = Some series ->
  to_datetime convert_scalar series = Some parsed ->
  has_column "Country_Region" d0 = false ->
  let w' := snd (main read_csv to_csv convert_scalar rnd script_dir w) in
  fst (main read_csv to_csv convert_scalar rnd script_dir w) = Return tt
  /\ heap w' = heap w ++ [converted d0 parsed; empty_frame]
  /\ calls w' = calls w ++ [Loader; Cleaner]
  /\ files w' = files w
  /\ shown w' = shown w
  /\ errors w' = errors w ++ [snd no_country_message; snd empty_result_message].
Proof.
  intros Hread Hseries Hparse Hcountry w'. unfold w'.
  destruct (load_then_clean w d0 Hread)
    as (w1 & Hload & Hlive & Hd0 & Hheap & Hlog & Hfiles & Hshown & Hcalls).
  rewrite main_run, Hload, clean_data_run by assumption. cbv zeta.
  rewrite Hd0, Hseries, Hparse.
  replace (getitem (converted d0 parsed) "Country_Region") with (@None (list cell)).
  2:{ symmetry. apply has_column_getitem. unfold has_column in *.
      now rewrite (columns_converted d0 series parsed Hseries). }
  rewrite Hheap, update_fresh. cbn [heap]. rewrite nth_fresh_after.
  cbn [empty empty_frame rows negb fst snd heap log files shown calls].
  rewrite Hlog, Hfiles, Hshown, Hcalls. unfold started; cbn [log].
  rewrite <- !app_assoc. repeat split.
  rewrite errors_app. reflexivity.
Qed.

(** A parse failure in the cleaner ends the run: the entry point has no
    handler for it. *)
Lemma main_parse_error (w : World) (d0 : DataFrame) (series : list cell) :
  read_csv (csv_file_path script_dir) = ReadOk d0 ->
  getitem (dropna d0) "Last_Update" = Some series ->
  to_datetime convert_scalar series = None ->
  main read_csv to_csv convert_scalar rnd script_dir w =
  (Raise to_datetime_error,
   mkWorld (heap w ++ [dropna d0])
           (log (started script_dir w) ++ [loaded_message])
           (files w) (shown w) (calls w ++ [Loader; Cleaner])).
Proof.
  intros Hread Hseries Hparse.
  destruct (load_then_clean w d0 Hread)
    as (w1 & Hload & Hlive & Hd0 & Hheap & Hlog & Hfiles & Hshown & Hcalls).
  rewrite main_run, Hload, clean_data_run by assumption. cbv zeta.
  rewrite Hd0, Hseries, Hparse, Hheap, update_fresh, Hlog, Hfiles, Hshown, Hcalls.
  now rewrite <- app_assoc.
Qed.

(** C10.  On a table without Last_Update the cleaner raises KeyError at the
    column access, before it looks for Country_Region: no empty table is
    returned.  The entry point has no handler, so the run ends with that
    exception after the loader and the cleaner, with nothing written. *)
Theorem missing_last_update_crashes :
  (forall (df : ref) (w : World),
      df < length (heap w) ->
      has_column "Last_Update" (nth df (heap w) empty_frame) = false ->
      clean_data convert_scalar df w =
      (Raise (KeyError "Last_Update"),
       mkWorld (update df (dropna (nth df (heap w) empty_frame)) (heap w))
               (log w) (files w) (shown w) (calls w ++ [Cleaner])))
  /\ (forall (w : World) (d0 : DataFrame),
        read_csv (csv_file_path script_dir) = ReadOk d0 ->
        has_column "Last_Update" d0 = false ->
        main read_csv to_csv convert_scalar rnd script_dir w =
        (Raise (KeyError "Last_Update"),
         mkWorld (heap w ++ [dropna d0])
                 (log (started script_dir w) ++ [loaded_message])
                 (files w) (shown w) (calls w ++ [Loader; Cleaner]))).
Proof.
  split.
  - intros df w Hlive Hno. now apply clean_data_without_last_update.
  - intros w d0 Hread Hno.
    destruct (load_then_clean w d0 Hread)
      as (w1 & Hload & Hlive & Hd0 & Hheap & Hlog & Hfiles & Hshown & Hcalls).
    rewrite main_run, Hload.
    rewrite clean_data_without_last_update by (try assumption; now rewrite Hd0).
    rewrite Hd0, Hheap, update_fresh, Hlog, Hfiles, Hshown, Hcalls.
    now rewrite <- app_assoc.
Qed.

End Run.

(** ** The case-fatality ratio *)

Section Fatality_ratio.

Variable rnd : Q -> Q.

(** What the proofs use of float64 rounding: it is monotone, and 0, 1 and
    100 are floats. *)
Hypothesis rnd_monotone : forall x y : Q, (x <= y)%Q -> (rnd x <= rnd y)%Q.
Hypothesis rnd_0 : (rnd 0 == 0)%Q.
Hypothesis rnd_1 : (rnd 1 == 1)%Q.
Hypothesis rnd_100 : (rnd 100 == 100)%Q.

Lemma rnd_between (lo hi x : Q) :
  (rnd lo == lo)%Q -> (rnd hi == hi)%Q ->
  (lo <= x)%Q -> (x <= hi)%Q -> (lo <= rnd x)%Q /\ (rnd x <= hi)%Q.
Proof.
  intros Hlo Hhi H1 H2. split.
  - rewrite <- Hlo. now apply rnd_monotone.
  - rewrite <- Hhi. now apply rnd_monotone.
Qed.

(** The float the lambda computes for positive [c] and [0 <= d <= c]. *)
Lemma percentage_bounds (d c : Q) :
  (0 < c)%Q -> (0 <= d)%Q -> (d <= c)%Q ->
  (0 <= rnd (rnd (d / c) * 100))%Q /\ (rnd (rnd (d / c) * 100) <= 100)%Q.
Proof.
  intros Hc Hd Hdc.
  assert (Hq : (0 <= d / c)%Q /\ (d / c <= 1)%Q).
  { split.
    - apply Qle_shift_div_l; [assumption|]. now rewrite Qmult_0_l.
    - apply Qle_shift_div_r; [assumption|]. now rewrite Qmult_1_l. }
  destruct Hq as [Hq0 Hq1].
  destruct (rnd_between 0 1 (d / c) rnd_0 rnd_1 Hq0 Hq1) as [Hr0 Hr1].
  apply rnd_between; try assumption.
  - apply Qmult_le_0_compat; [assumption|discriminate].
  - setoid_replace (100 : Q) with (1 * 100)%Q at 2 by reflexivity.
    apply Qmult_le_compat_r; [assumption|discriminate].
Qed.

Lemma positive_of_test (c : Q) : Qle_bool c 0 = false -> (0 < c)%Q.
Proof.
  intros Hpos. apply Qnot_le_lt. intros Hn. apply Qle_bool_iff in Hn. congruence.
Qed.

(** *** The lambda on finite numbers *)

Lemma greater_than_zero_number (confirmed : cell) (c : Q) :
  number confirmed = Some c ->
  greater_than_zero confirmed = Some (negb (Qle_bool c 0)).
Proof.
  destruct confirmed; try discriminate; intros [= <-]; cbn [greater_than_zero];
    [|reflexivity].
  f_equal. unfold Qle_bool, inject_Z. cbn [Qnum Qden].
  destruct (Z.ltb_spec 0 z), (Z.leb_spec (z * 1) (0 * 1)); simpl; auto; lia.
Qed.

Lemma as_float_number (x : cell) (q : Q) :
  number x = Some q -> as_float x = Some (Finite q).
Proof. destruct x; try discriminate; now intros [= <-]. Qed.

Lemma hundred_below_overflow : (100 < float_overflow)%Q.
Proof. reflexivity. Qed.

(** Below the float range nothing rounds to an infinity. *)
Lemma round_finite (x : Q) :
  (0 <= x)%Q -> (x <= 100)%Q -> round rnd x = Finite (rnd x).
Proof.
  intros Hlo Hhi. unfold round.
  destruct (Qle_bool float_overflow x) eqn:E1.
  { apply Qle_bool_iff in E1. exfalso.
    apply (Qlt_not_le _ _ hundred_below_overflow). now apply Qle_trans with x. }
  destruct (Qle_bool x (- float_overflow)) eqn:E2; [|reflexivity].
  apply Qle_bool_iff in E2. exfalso.
  assert (Hneg : (- float_overflow < 0)%Q) by reflexivity.
  apply (Qlt_not_le _ _ Hneg). now apply Qle_trans with x.
Qed.

(** What the lambda computes from finite numbers with a positive divisor. *)
Lemma lambda_on_numbers (cols : list string) (r : row) (confirmed deaths : cell)
      (c d : Q) :
  row_get cols r "Confirmed" = Some confirmed ->
  number confirmed = Some c ->
  row_get cols r "Deaths" = Some deaths ->
  number deaths = Some d ->
  Qle_bool c 0 = false ->
  case_fatality_ratio rnd cols r
  = Return (of_float (times_100 rnd (divide rnd (Finite d) (Finite c)))).
Proof.
  intros Hconfirmed Hc Hdeaths Hd Hpos. unfold case_fatality_ratio.
  rewrite Hconfirmed, (greater_than_zero_number confirmed c Hc), Hpos. cbn [negb].
  now rewrite Hdeaths, (as_float_number deaths d Hd), (as_float_number confirmed c Hc).
Qed.

(** The lambda on a row of counts. *)
Lemma ratio_in_range (cols : list string) (r : row) (confirmed deaths : cell) (c d : Q) :
  row_get cols r "Confirmed" = Some confirmed ->
  number confirmed = Some c ->
  row_get cols r "Deaths" = Some deaths ->
  number deaths = Some d ->
  (0 <= d)%Q -> (d <= c)%Q ->
  exists (v : cell) (q : Q),
    case_fatality_ratio rnd cols r = Return v
    /\ number v = Some q /\ (0 <= q)%Q /\ (q <= 100)%Q.
Proof.
  intros Hconfirmed Hc Hdeaths Hd H0 Hle.
  destruct (Qle_bool c 0) eqn:Hpos.
  - exists (Int 0), (inject_Z 0). unfold case_fatality_ratio.
    rewrite Hconfirmed, (greater_than_zero_number confirmed c Hc), Hpos.
    repeat split; discriminate.
  - pose proof (positive_of_test c Hpos) as Hc0.
    rewrite (lambda_on_numbers cols r confirmed deaths c d) by assumption.
    assert (Hq : (0 <= d / c)%Q /\ (d / c <= 1)%Q).
    { split.
      - apply Qle_shift_div_l; [assumption|]. now rewrite Qmult_0_l.
      - apply Qle_shift_div_r; [assumption|]. now rewrite Qmult_1_l. }
    destruct Hq as [Hq0 Hq1].
    destruct (rnd_between 0 1 (d / c) rnd_0 rnd_1 Hq0 Hq1) as [Hr0 Hr1].
    assert (Hp0 : (0 <= rnd (d / c) * 100)%Q)
      by (apply Qmult_le_0_compat; [assumption|discriminate]).
    assert (Hp1 : (rnd (d / c) * 100 <= 100)%Q).
    { setoid_replace (100 : Q) with (1 * 100)%Q at 2 by reflexivity.
      apply Qmult_le_compat_r; [assumption|discriminate]. }
    destruct (percentage_bounds d c Hc0 H0 Hle) as [Hlo Hhi].
    cbn [divide]. rewrite round_finite; [|assumption|].
    2:{ apply Qle_trans with 1%Q; [assumption|discriminate]. }
    cbn [times_100]. rewrite round_finite by assumption. cbn [of_float].
    exists (Flt (rnd (rnd (d / c) * 100))), (rnd (rnd (d / c) * 100)). auto.
Qed.



(** *** The derived column *)

(** On a table of counts [apply] returns, with one percentage per row. *)
Lemma ratio_column_in_range (cols : list string) (rs : list row) :
  Forall (counts_row cols) rs ->
  exists ratio,
    apply_rows (case_fatality_ratio rnd cols) rs = Return ratio
    /\ length ratio = length rs
    /\ Forall percentage ratio.
Proof.
  induction 1 as [|r rs Hr _ IH]; simpl.
  - exists []. auto.
  - destruct Hr as (confirmed & deaths & c & d & H1 & H2 & H3 & H4 & _ & _ & H5 & H6).
    destruct (ratio_in_range cols r confirmed deaths c d H1 H2 H3 H4 H5 H6)
      as (v & q & -> & Hq).
    destruct IH as (ratio & -> & Hlen & Hall).
    exists (v :: ratio). repeat split; simpl; [congruence|].
    constructor; [exists q; exact Hq | assumption].
Qed.

Lemma get_loc_last (label : string) (cols : list string) :
  get_loc label cols = None -> get_loc label (cols ++ [label]) = Some (length cols).
Proof.
  induction cols as [|c cs IH]; simpl.
  - now rewrite String.eqb_refl.
  - destruct (String.eqb c label); [discriminate|].
    destruct (get_loc label cs); [discriminate|]. intros _. now rewrite IH.
Qed.

Lemma has_column_setitem (d : DataFrame) (label : string) (values : list cell) :
  exists series, getitem (setitem d label values) label = Some series.
Proof.
  unfold getitem, setitem.
  destruct (get_loc label (columns d)) as [i|] eqn:Hi; cbn [columns rows].
  - rewrite Hi. eauto.
  - rewrite (get_loc_last _ _ Hi). eauto.
Qed.

(** The analyzer on a table that is not empty and has both count columns:
    when the lambda returns on every row, the ratios become the
    Case_Fatality_Ratio column of the very table it was given, and both
    figures are shown. *)
Lemma analyze_data_stores_ratio (df : ref) (w : World) (ratio : list cell) :
  df < length (heap w) ->
  let d := nth df (heap w) empty_frame in
  empty d = false ->
  has_column "Deaths" d = true ->
  has_column "Confirmed" d = true ->
  apply_rows (case_fatality_ratio rnd (columns d)) (rows d) = Return ratio ->
  exists w',
    analyze_data rnd df w = (Return tt, w')
    /\ nth df (heap w') empty_frame = setitem d "Case_Fatality_Ratio" ratio
    /\ log w' = log w
    /\ exists series,
         getitem (setitem d "Case_Fatality_Ratio" ratio) "Case_Fatality_Ratio"
         = Some series
         /\ shown w'
            = shown w
              ++ (if has_column "Province_State" d then [PrintedSummary d] else [])
              ++ [Histogram series; Heatmap (setitem d "Case_Fatality_Ratio" ratio)].
Proof.
  intros Hlive d Hfull Hdeaths Hconfirmed Hratio.
  destruct (has_column_setitem d "Case_Fatality_Ratio" ratio) as [series Hseries].
  unfold analyze_data. rewrite run_enter, run_deref. cbn [heap]. fold d.
  rewrite Hfull, Hdeaths, Hconfirmed. cbn [andb].
  rewrite (groupby_describe_other d "Province_State" "Deaths" Hdeaths)
    by discriminate.
  destruct (has_column "Province_State" d); step;
    rewrite Hratio; step;
    rewrite nth_update by assumption; rewrite Hseries; step;
    unfold plot_case_fatality_ratio, plot_correlation_matrix; step;
    rewrite nth_update by assumption;
    (eexists; split; [reflexivity|]); cbn [heap log shown];
    rewrite nth_update by assumption;
    (split; [reflexivity|]); (split; [reflexivity|]);
    exists series; (split; [reflexivity|]);
    rewrite <- !app_assoc; reflexivity.
Qed.

End Fatality_ratio.

(** ** The statements on the sample environment *)

Lemma sample_rnd_monotone (x y : Q) : (x <= y)%Q -> (Sample.rnd x <= Sample.rnd y)%Q.
Proof.
  intros H. unfold Sample.rnd, Qdiv.
  apply Qmult_le_compat_r; [|discriminate].
  rewrite <- Zle_Qle. apply Qfloor_resp_le.
  apply Qplus_le_l. apply Qmult_le_compat_r; [assumption|discriminate].
Qed.

Lemma sample_rnd_0 : (Sample.rnd 0 == 0)%Q.
Proof. reflexivity. Qed.

Lemma sample_rnd_1 : (Sample.rnd 1 == 1)%Q.
Proof. reflexivity. Qed.

Lemma sample_rnd_100 : (Sample.rnd 100 == 100)%Q.
Proof. reflexivity. Qed.

Lemma no_duplicates (l : list string) : distinct l = true -> NoDup l.
Proof.
  induction l as [|x t IH]; simpl; intros H; constructor.
  - apply andb_prop in H as [H _]. apply negb_true_iff in H.
    intros Hin. unfold mem in H.
    assert (existsb (String.eqb x) t = true); [|congruence].
    apply existsb_exists. exists x. split; [assumption|apply String.eqb_refl].
  - apply andb_prop in H as [_ H]. auto.
Qed.

Lemma sample_report_well_formed : well_formed Sample.report.
Proof.
  split; [apply no_duplicates; reflexivity | repeat constructor].
Defined.

Lemma sample_report_cleaned_well_formed : well_formed Sample.report_cleaned.
Proof.
  split; [apply no_duplicates; reflexivity | repeat constructor].
Defined.




(** Whatever the date parser, the text NaT is read as a missing timestamp. *)
Lemma nat_text_becomes_missing (convert_scalar : cell -> option cell) :
  to_datetime convert_scalar [Str "NaT"] = Some [NA].
Proof. reflexivity. Qed.



(** The scenario of the specification: 100 confirmed, 5 deaths, ratio 5. *)
Example case_fatality_ratio_five :
  case_fatality_ratio Sample.rnd (columns Sample.report_cleaned)
    [Str "Alabama"; Str "US"; Time 1609564953000000000; Int 100; Int 5]
  = Return (Flt (5000000000 # 1000000000)).
Proof. reflexivity. Qed.

(** C3, on a disk whose input file has no Country_Region column. *)
Lemma main_without_country_region_witness :
  fst (main (Sample.disk_with Sample.report_no_country) Sample.writable
            Sample.convert_scalar Sample.rnd Sample.script_dir initial_world) = Return tt
  /\ heap (snd (main (Sample.disk_with Sample.report_no_country) Sample.writable
                     Sample.convert_scalar Sample.rnd Sample.script_dir initial_world))
     = [] ++ [converted Sample.report_no_country
                [Time 1609564953000000000]; empty_frame]
  /\ calls (snd (main (Sample.disk_with Sample.report_no_country) Sample.writable
                      Sample.convert_scalar Sample.rnd Sample.script_dir initial_world))
     = [] ++ [Loader; Cleaner]
  /\ files (snd (main (Sample.disk_with Sample.report_no_country) Sample.writable
                      Sample.convert_scalar Sample.rnd Sample.script_dir initial_world))
     = []
  /\ shown (snd (main (Sample.disk_with Sample.report_no_country) Sample.writable
                      Sample.convert_scalar Sample.rnd Sample.script_dir initial_world))
     = []
  /\ errors (snd (main (Sample.disk_with Sample.report_no_country) Sample.writable
                       Sample.convert_scalar Sample.rnd Sample.script_dir initial_world))
     = [] ++ ["'Country_Region' column not found.";
              "Cleaned data is empty. Exiting the script."].
Proof.
  exact (main_without_country_region
           (Sample.disk_with Sample.report_no_country) Sample.writable
           Sample.convert_scalar Sample.rnd Sample.script_dir initial_world
           Sample.report_no_country
           [Str "2021-01-02 05:22:33"] [Time 1609564953000000000]
           eq_refl eq_refl eq_refl eq_refl).
Defined.

(** C3 as it is stated fails on that input: the run logs two errors, not
    one. *)
Lemma main_without_country_region_logs_two_errors :
  has_column "Country_Region" Sample.report_no_country = false
  /\ has_column "Last_Update" Sample.report_no_country = true
  /\ fst (main (Sample.disk_with Sample.report_no_country) Sample.writable
               Sample.convert_scalar Sample.rnd Sample.script_dir initial_world)
     = Return tt
  /\ length (errors (snd (main (Sample.disk_with Sample.report_no_country)
                              Sample.writable Sample.convert_scalar Sample.rnd
                              Sample.script_dir initial_world))) = 2.
Proof. repeat split. Qed.

(** C4, on the sample report after its first cleaning. *)
Lemma clean_data_idempotent_witness :
  clean_data Sample.convert_scalar 0 (Sample.holding Sample.report_cleaned)
  = (Return 1,
     mkWorld ([Sample.report_cleaned] ++ [Sample.report_cleaned])
             ([] ++ [columns_message Sample.report_cleaned]) [] []
             ([] ++ [Cleaner])).
Proof.
  exact (clean_data_idempotent Sample.convert_scalar 0
           (Sample.holding Sample.report_cleaned) (Nat.lt_0_succ 0)
           sample_report_cleaned_well_formed eq_refl eq_refl eq_refl).
Defined.

(** C4 as it is stated fails on three tables that are clean in the three
    ways it lists: the empty table, which is what the cleaner returns for a
    report without Country_Region (cleaning it again raises KeyError); a
    table whose timestamps are still text (the table returned holds
    timestamps); and a table without rows and without Country_Region (the
    table returned has no column). *)
Lemma clean_data_not_idempotent :
  (nth 1 (heap (snd (clean_data Sample.convert_scalar 0
                       (Sample.holding Sample.report_no_country)))) empty_frame
   = empty_frame
   /\ cleaned empty_frame = true
   /\ fst (clean_data Sample.convert_scalar 0 (Sample.holding empty_frame))
      = Raise (KeyError "Last_Update"))
  /\ (cleaned Sample.report_text_dates = true
      /\ getitem Sample.report_text_dates "Last_Update"
         = Some [Str "2021-01-02 05:22:33"]
      /\ fst (clean_data Sample.convert_scalar 0 (Sample.holding Sample.report_text_dates))
         = Return 1
      /\ getitem (nth 1 (heap (snd (clean_data Sample.convert_scalar 0
                                      (Sample.holding Sample.report_text_dates))))
                      empty_frame) "Last_Update"
         = Some [Time 1609564953000000000])
  /\ (cleaned Sample.only_last_update = true
      /\ columns Sample.only_last_update = ["Last_Update"]
      /\ fst (clean_data Sample.convert_scalar 0 (Sample.holding Sample.only_last_update))
         = Return 1
      /\ columns (nth 1 (heap (snd (clean_data Sample.convert_scalar 0
                                      (Sample.holding Sample.only_last_update))))
                      empty_frame)
         = []).
Proof. repeat split. Qed.

(** C5, on a disk without the input file; and two file-not-found errors
    share their message, as they share their except clause. *)
Lemma load_data_never_raises_witness :
  (exists result w',
      load_data Sample.empty_disk Sample.input_path initial_world = (Return result, w')
      /\ result = None
      /\ heap w' = []
      /\ log w' = [] ++ [(ERROR, file_not_found_message Sample.input_path)])
  /\ kind_of (FileNotFoundError "first") = kind_of (FileNotFoundError "second").
Proof.
  split.
  - exact (proj1 (load_data_never_raises Sample.empty_disk Sample.input_path
                    initial_world)).
  - exact (proj2 (load_data_never_raises Sample.empty_disk Sample.input_path
                    initial_world)
                 (FileNotFoundError "first") (FileNotFoundError "second") eq_refl).
Defined.

(** The loader on a disk that holds the sample report. *)
Example load_data_sample :
  load_data (Sample.disk_with Sample.report) Sample.input_path initial_world
  = (Return (Some 0),
     mkWorld [Sample.report] [loaded_message] [] [] [Loader]).
Proof. reflexivity. Qed.

(** C6, on a disk that refuses the write: the run goes on to the analyzer
    and the only trace of the failure is the error message. *)
Lemma save_cleaned_data_never_raises_witness :
  (exists w',
      save_cleaned_data Sample.read_only 0 "out.csv"
        (Sample.holding Sample.report_cleaned) = (Return tt, w')
      /\ heap w' = [Sample.report_cleaned]
      /\ calls w' = [] ++ [Persister]
      /\ log w' = [] ++ [save_failed_message (OtherException "[Errno 13] Permission denied")]
      /\ files w' = [])
  /\ calls (snd (main (Sample.disk_with Sample.report) Sample.read_only
                      Sample.convert_scalar Sample.rnd Sample.script_dir initial_world))
     = [Loader; Cleaner] ++ [Persister; Analyzer].
Proof.
  split.
  - exact (proj1 (save_cleaned_data_never_raises
                    (Sample.disk_with Sample.report) Sample.read_only
                    Sample.convert_scalar Sample.rnd Sample.script_dir)
                 0 "out.csv" (Sample.holding Sample.report_cleaned)).
  - exact (proj2 (proj2 (save_cleaned_data_never_raises
                    (Sample.disk_with Sample.report) Sample.read_only
                    Sample.convert_scalar Sample.rnd Sample.script_dir)
                 initial_world
                 (snd (load_data (Sample.disk_with Sample.report) Sample.input_path
                         (started Sample.script_dir initial_world)))
                 (snd (clean_data Sample.convert_scalar 0
                         (snd (load_data (Sample.disk_with Sample.report)
                                 Sample.input_path
                                 (started Sample.script_dir initial_world)))))
                 0 1 eq_refl eq_refl eq_refl)).
Defined.

(** The same run, in full: nothing is written, one error is logged, and the
    analyzer has shown the summary and both figures. *)
Example main_with_failed_write :
  let w' := snd (main (Sample.disk_with Sample.report) Sample.read_only
                      Sample.convert_scalar Sample.rnd Sample.script_dir initial_world) in
  files w' = []
  /\ errors w' = ["Failed to save cleaned data: [Errno 13] Permission denied"]
  /\ length (shown w') = 3.
Proof. repeat split. Qed.

(** C7, on a report whose timestamp reads yesterday. *)
Lemma clean_data_propagates_parse_error_witness :
  clean_data Sample.convert_scalar 0 (Sample.holding Sample.report_bad_date)
  = (Raise to_datetime_error,
     mkWorld (update 0 (dropna Sample.report_bad_date) [Sample.report_bad_date])
             [] [] [] ([] ++ [Cleaner])).
Proof.
  exact (clean_data_propagates_parse_error Sample.convert_scalar 0
           (Sample.holding Sample.report_bad_date) [Str "yesterday"]
           (Nat.lt_0_succ 0) eq_refl eq_refl).
Defined.

(** A timestamp that is no date does not stop the cleaner when its row is
    incomplete: [dropna] removes the row before the parser sees it. *)
Example unreadable_timestamp_in_dropped_row :
  to_datetime Sample.convert_scalar [Str "2021-01-02 05:22:33"; Str "yesterday"] = None
  /\ fst (clean_data Sample.convert_scalar 0
            (Sample.holding Sample.report_bad_date_incomplete)) = Return 1
  /\ rows (nth 1 (heap (snd (clean_data Sample.convert_scalar 0
                                (Sample.holding Sample.report_bad_date_incomplete))))
                empty_frame)
     = [[Str "US"; Time 1609564953000000000; Int 100; Int 5]].
Proof. repeat split. Qed.

(** C7 as it is stated fails on two tables whose Last_Update column exists
    and cannot be parsed, the unreadable timestamp standing in a row that has
    a missing value: [dropna] removes the row first and the cleaner returns,
    a table with the other row for the first, a table without rows for the
    second. *)
Lemma clean_data_skips_unreadable_timestamp :
  (getitem Sample.report_bad_date_incomplete "Last_Update"
   = Some [Str "2021-01-02 05:22:33"; Str "yesterday"]
   /\ to_datetime Sample.convert_scalar [Str "2021-01-02 05:22:33"; Str "yesterday"]
      = None
   /\ fst (clean_data Sample.convert_scalar 0
             (Sample.holding Sample.report_bad_date_incomplete)) = Return 1
   /\ rows (nth 1 (heap (snd (clean_data Sample.convert_scalar 0
                                 (Sample.holding Sample.report_bad_date_incomplete))))
                 empty_frame)
      = [[Str "US"; Time 1609564953000000000; Int 100; Int 5]])
  /\ (getitem Sample_inf.report_one_bad_row "Last_Update" = Some [Str "yesterday"]
      /\ to_datetime Sample.convert_scalar [Str "yesterday"] = None
      /\ fst (clean_data Sample.convert_scalar 0
                (Sample.holding Sample_inf.report_one_bad_row)) = Return 1
      /\ rows (nth 1 (heap (snd (clean_data Sample.convert_scalar 0
                                    (Sample.holding Sample_inf.report_one_bad_row))))
                    empty_frame)
         = []).
Proof. repeat split. Qed.

(** C8, on a disk without the input file. *)
Lemma main_stops_when_loading_fails_witness :
  fst (main Sample.empty_disk Sample.writable Sample.convert_scalar Sample.rnd
            Sample.script_dir initial_world) = Return tt
  /\ calls (snd (main Sample.empty_disk Sample.writable Sample.convert_scalar
                      Sample.rnd Sample.script_dir initial_world)) = [] ++ [Loader]
  /\ files (snd (main Sample.empty_disk Sample.writable Sample.convert_scalar
                      Sample.rnd Sample.script_dir initial_world)) = []
  /\ heap (snd (main Sample.empty_disk Sample.writable Sample.convert_scalar
                     Sample.rnd Sample.script_dir initial_world)) = []
  /\ shown (snd (main Sample.empty_disk Sample.writable Sample.convert_scalar
                      Sample.rnd Sample.script_dir initial_world)) = []
  /\ exists e,
       Sample.empty_disk (csv_file_path Sample.script_dir) = ReadRaises e
       /\ errors (snd (main Sample.empty_disk Sample.writable Sample.convert_scalar
                            Sample.rnd Sample.script_dir initial_world))
          = [] ++ [load_error_message (csv_file_path Sample.script_dir) e;
                   snd load_failed_message].
Proof.
  exact (main_stops_when_loading_fails Sample.empty_disk Sample.writable
           Sample.convert_scalar Sample.rnd Sample.script_dir initial_world
           (snd (load_data Sample.empty_disk (csv_file_path Sample.script_dir)
                   (started Sample.script_dir initial_world)))
           eq_refl).
Defined.

(** C9, on a report without Country_Region: the caller asked for a cleaned
    table, got an empty one, and its own table lost the incomplete row and
    had its timestamps converted. *)
Lemma clean_data_mutates_input_witness :
  nth 0 (heap (snd (clean_data Sample.convert_scalar 0
                      (Sample.holding Sample.report_no_country)))) empty_frame
  = mkDataFrame ["Province_State"; "Last_Update"; "Confirmed"; "Deaths"]
      [ [Str "Alabama"; Time 1609564953000000000; Int 100; Int 5] ]
  /\ fst (clean_data Sample.convert_scalar 0 (Sample.holding Sample.report_no_country))
     = Return 1
  /\ nth 1 (heap (snd (clean_data Sample.convert_scalar 0
                         (Sample.holding Sample.report_no_country)))) empty_frame
     = empty_frame.
Proof.
  pose proof (clean_data_mutates_input Sample.convert_scalar 0
                (Sample.holding Sample.report_no_country) (Nat.lt_0_succ 0))
    as [Hleft Hpath].
  split; [exact Hleft|].
  destruct (Hpath [Str "2021-01-02 05:22:33"] [Time 1609564953000000000]
              eq_refl eq_refl eq_refl) as (Hret & Hnew & _).
  split; [exact Hret | exact Hnew].
Defined.

(** C10, on a report without Last_Update. *)
Lemma missing_last_update_crashes_witness :
  clean_data Sample.convert_scalar 0 (Sample.holding Sample.report_no_update)
  = (Raise (KeyError "Last_Update"),
     mkWorld (update 0 (dropna Sample.report_no_update) [Sample.report_no_update])
             [] [] [] ([] ++ [Cleaner]))
  /\ main (Sample.disk_with Sample.report_no_update) Sample.writable
          Sample.convert_scalar Sample.rnd Sample.script_dir initial_world
     = (Raise (KeyError "Last_Update"),
        mkWorld ([] ++ [dropna Sample.report_no_update])
                (log (started Sample.script_dir initial_world) ++ [loaded_message])
                [] [] ([] ++ [Loader; Cleaner])).
Proof.
  split.
  - exact (proj1 (missing_last_update_crashes
                    (Sample.disk_with Sample.report_no_update) Sample.writable
                    Sample.convert_scalar Sample.rnd Sample.script_dir)
                 0 (Sample.holding Sample.report_no_update) (Nat.lt_0_succ 0) eq_refl).
  - exact (proj2 (missing_last_update_crashes
                    (Sample.disk_with Sample.report_no_update) Sample.writable
                    Sample.convert_scalar Sample.rnd Sample.script_dir)
                 initial_world Sample.report_no_update eq_refl eq_refl).
Defined.

(** ** More about the cleaner *)

Lemma nth_update_other (r r' : ref) (df : DataFrame) (h : list DataFrame) :
  r' <> r -> nth r' (update r df h) empty_frame = nth r' h empty_frame.
Proof.
  revert r r'; induction h as [|d h IH]; intros [|r] [|r'] H; simpl; auto;
    congruence.
Qed.

Lemma filter_filter {A : Type} (p q : A -> bool) (l : list A) :
  filter q (filter p l) = filter (fun x => p x && q x) l.
Proof.
  induction l as [|a l IH]; simpl; [reflexivity|].
  destruct (p a); simpl; [|assumption]. destruct (q a); now rewrite IH.
Qed.

Lemma length_zip_with {A B C : Type} (f : A -> B -> C) (xs : list A) (ys : list B) :
  length xs = length ys -> length (zip_with f xs ys) = length ys.
Proof.
  revert ys; induction xs as [|x xs IH]; intros [|y ys]; simpl; try discriminate;
    auto.
Qed.

(** Filtering after an element-wise change that the test does not see. *)
Lemma filter_zip_with_length {A : Type} (f : A -> row -> row) (p : row -> bool)
      (vs : list A) (rs : list row) :
  length vs = length rs ->
  (forall v r, p (f v r) = p r) ->
  length (filter p (zip_with f vs rs)) = length (filter p rs).
Proof.
  intros Hlen Hp. revert rs Hlen.
  induction vs as [|v vs IH]; intros [|r rs]; simpl; try discriminate; auto.
  intros [= Hlen]. rewrite Hp. destruct (p r); simpl; now rewrite IH.
Qed.

Lemma no_match_length {A : Type} (p : A -> bool) (l : list A) :
  forallb (fun x => negb (p x)) l = (length (filter p l) =? 0)%nat.
Proof.
  induction l as [|a l IH]; simpl; [reflexivity|].
  destruct (p a); simpl; [reflexivity|assumption].
Qed.

Section Cleaner_more.

Variable convert_scalar : cell -> option cell.

Lemma to_datetime_length (series parsed : list cell) :
  to_datetime convert_scalar series = Some parsed -> length parsed = length series.
Proof.
  revert parsed; induction series as [|c t IH]; simpl; intros parsed.
  - now intros [= <-].
  - destruct (to_datetime_scalar convert_scalar c); [|discriminate].
    destruct (to_datetime convert_scalar t) as [vs|]; [|discriminate].
    intros [= <-]. simpl. now rewrite (IH vs eq_refl).
Qed.

(** [clean_data] and [clean_result]: the call returns a new reference to the
    table, or raises the exception. *)
Lemma clean_data_result (df : ref) (w : World) :
  df < length (heap w) ->
  match clean_result convert_scalar (nth df (heap w) empty_frame) with
  | Return c =>
      fst (clean_data convert_scalar df w) = Return (length (heap w))
      /\ nth (length (heap w)) (heap (snd (clean_data convert_scalar df w))) empty_frame
         = c
  | Raise e => fst (clean_data convert_scalar df w) = Raise e
  end.
Proof.
  intros Hlive. rewrite clean_data_run by assumption. cbv zeta. unfold clean_result.
  destruct (getitem (dropna _) "Last_Update") as [series|]; [|reflexivity].
  destruct (to_datetime convert_scalar series) as [parsed|]; [|reflexivity].
  destruct (getitem (converted _ parsed) "Country_Region"); cbn [fst snd heap];
    (split; [reflexivity|]);
    rewrite <- (length_update df (converted (nth df (heap w) empty_frame) parsed) (heap w));
    apply nth_fresh.
Qed.

(** Where a row of the cleaned table comes from. *)
Lemma us_rows_origin (d0 : DataFrame) (series parsed : list cell) (i j : nat) (r : row) :
  getitem (dropna d0) "Last_Update" = Some series ->
  get_loc "Last_Update" (columns d0) = Some i ->
  get_loc "Country_Region" (columns d0) = Some j ->
  In r (rows (us_rows (converted d0 parsed)
                (map (fun r => nth j r NA) (rows (converted d0 parsed))))) ->
  exists p r1, In r1 (rows d0) /\ complete r1 = true
               /\ cell_eq_str "US" (nth j r1 NA) = true
               /\ r = drop_cells ["Long_"; "Lat"] (columns d0) (set_nth i p r1).
Proof.
  intros Hseries Hi Hj Hr.
  pose proof (columns_converted d0 series parsed Hseries) as Hcols.
  unfold us_rows, drop_columns, boolean_index in Hr.
  cbn [rows columns] in Hr. rewrite map_map, select_map, Hcols in Hr.
  apply in_map_iff in Hr as (r2 & <- & Hr2).
  apply filter_In in Hr2 as [Hr2 Hus].
  destruct (converted_rows d0 series parsed i r2 Hi Hr2)
    as (p & r1 & _ & Hin & Hna & ->).
  exists p, r1. repeat split; auto.
  - unfold complete. now rewrite Hna.
  - rewrite nth_set_nth_other in Hus; [assumption|].
    intros ->. pose proof (get_loc_inj _ _ _ _ Hi Hj). discriminate.
Qed.

Lemma clean_data_returned (df : ref) (w w' : World) (out : ref) :
  df < length (heap w) ->
  clean_data convert_scalar df w = (Return out, w') ->
  clean_result convert_scalar (nth df (heap w) empty_frame)
  = Return (nth out (heap w') empty_frame).
Proof.
  intros Hlive Hrun. pose proof (clean_data_result df w Hlive) as H.
  rewrite Hrun in H. cbn [fst snd] in H.
  destruct (clean_result convert_scalar _) as [c|e]; [|discriminate].
  destruct H as [[= <-] <-]. reflexivity.
Qed.

(** The parts of a returning [clean_result]. *)
Lemma clean_result_cases (d0 c : DataFrame) :
  clean_result convert_scalar d0 = Return c ->
  exists series parsed i,
    getitem (dropna d0) "Last_Update" = Some series
    /\ to_datetime convert_scalar series = Some parsed
    /\ get_loc "Last_Update" (columns d0) = Some i
    /\ columns (converted d0 parsed) = columns d0
    /\ match get_loc "Country_Region" (columns d0) with
       | None => c = empty_frame
       | Some j => c = us_rows (converted d0 parsed)
                         (map (fun r => nth j r NA) (rows (converted d0 parsed)))
       end.
Proof.
  unfold clean_result.
  destruct (getitem (dropna d0) "Last_Update") as [series|] eqn:Hseries; [|discriminate].
  destruct (to_datetime convert_scalar series) as [parsed|] eqn:Hparsed; [|discriminate].
  pose proof (columns_converted d0 series parsed Hseries) as Hcols.
  unfold getitem at 1. rewrite Hcols. intros H.
  exists series, parsed.
  assert (Hi : exists i, get_loc "Last_Update" (columns d0) = Some i).
  { unfold getitem in Hseries. rewrite columns_dropna in Hseries.
    destruct (get_loc "Last_Update" (columns d0)); [eauto|discriminate]. }
  destruct Hi as [i Hi]. exists i. repeat split; auto.
  destruct (get_loc "Country_Region" (columns d0)); congruence.
Qed.

(** The cleaned table has as many rows as the input has complete US rows. *)
Lemma clean_result_row_count (d0 c : DataFrame) :
  has_column "Country_Region" d0 = true ->
  clean_result convert_scalar d0 = Return c ->
  length (rows c)
  = length (filter (fun r => complete r && us_row (columns d0) r) (rows d0)).
Proof.
  intros Hcountry Hres.
  destruct (clean_result_cases d0 c Hres)
    as (series & parsed & i & Hseries & Hparsed & Hi & Hcols & Hc).
  unfold has_column in Hcountry.
  destruct (get_loc "Country_Region" (columns d0)) as [j|] eqn:Hj; [|discriminate].
  assert (Hij : j <> i).
  { intros ->. pose proof (get_loc_inj _ _ _ _ Hi Hj). discriminate. }
  rewrite Hc. unfold us_rows, drop_columns, boolean_index. cbn [rows].
  rewrite length_map, map_map, select_map.
  unfold converted, setitem. rewrite columns_dropna, Hi. cbn [rows].
  rewrite filter_zip_with_length.
  - unfold dropna; cbn [rows]. rewrite filter_filter.
    f_equal. apply filter_ext. intros r. unfold complete, us_row, row_get.
    now rewrite Hj.
  - rewrite (to_datetime_length series parsed Hparsed).
    unfold getitem in Hseries. rewrite columns_dropna, Hi in Hseries.
    injection Hseries as <-. now rewrite length_map.
  - intros v r. now rewrite nth_set_nth_other.
Qed.

(** Each row of the cleaned table is a complete US row of the input,
    unchanged outside Last_Update and the coordinates. *)
Lemma clean_result_row_origin (d0 c : DataFrame) (r : row) :
  well_formed d0 ->
  has_column "Country_Region" d0 = true ->
  clean_result convert_scalar d0 = Return c ->
  In r (rows c) ->
  exists r1, In r1 (rows d0) /\ complete r1 = true
             /\ us_row (columns d0) r1 = true
             /\ forall label, label <> "Last_Update" ->
                              is_coordinate label = false ->
                              row_get (columns c) r label
                              = row_get (columns d0) r1 label.
Proof.
  intros [_ Hrect] Hcountry Hres Hr.
  destruct (clean_result_cases d0 c Hres)
    as (series & parsed & i & Hseries & Hparsed & Hi & Hcols & Hc).
  unfold has_column in Hcountry.
  destruct (get_loc "Country_Region" (columns d0)) as [j|] eqn:Hj; [|discriminate].
  rewrite Hc in Hr.
  destruct (us_rows_origin d0 series parsed i j r Hseries Hi Hj Hr)
    as (p & r1 & Hin & Hcomplete & Hus1 & ->).
  exists r1. unfold us_row at 1, row_get at 1. rewrite Hj. repeat split; auto.
  intros label Hlabel Hcoord.
  assert (Hcolc : columns c = filter (fun x => negb (mem x ["Long_"; "Lat"])) (columns d0)).
  { rewrite Hc. unfold us_rows, drop_columns, boolean_index. cbn [columns].
    now rewrite Hcols. }
  rewrite Hcolc, row_get_drop_cells.
  - unfold row_get. destruct (get_loc label (columns d0)) as [k|] eqn:Hk; [|reflexivity].
    rewrite nth_set_nth_other; [reflexivity|].
    intros ->. apply Hlabel. exact (get_loc_inj _ _ _ _ Hk Hi).
  - rewrite length_set_nth. exact (proj1 (Forall_forall _ _) Hrect r1 Hin).
  - exact Hcoord.
Qed.

(** The cleaned table is empty exactly when Country_Region is absent or no
    input row is both complete and US. *)
Lemma clean_result_empty (d0 c : DataFrame) :
  clean_result convert_scalar d0 = Return c ->
  empty c
  = negb (has_column "Country_Region" d0)
    || forallb (fun r => negb (complete r && us_row (columns d0) r)) (rows d0).
Proof.
  intros Hres.
  destruct (has_column "Country_Region" d0) eqn:Hcountry; cbn [negb orb].
  - pose proof (clean_result_row_count d0 c Hcountry Hres) as Hlen.
    destruct (clean_result_cases d0 c Hres)
      as (series & parsed & i & Hseries & Hparsed & Hi & Hcols & Hc).
    unfold has_column in Hcountry.
    destruct (get_loc "Country_Region" (columns d0)) as [j|] eqn:Hj; [|discriminate].
    assert (Hcolc : columns c <> []).
    { rewrite Hc. unfold us_rows, drop_columns, boolean_index. cbn [columns].
      rewrite Hcols. intros Hnil.
      assert (Hin : In "Country_Region"
                       (filter (fun x => negb (mem x ["Long_"; "Lat"])) (columns d0))).
      { apply filter_In. split; [|reflexivity].
        apply get_loc_nth_error in Hj. eapply nth_error_In; eassumption. }
      rewrite Hnil in Hin. contradiction. }
    rewrite no_match_length, <- Hlen. unfold empty.
    destruct (rows c); [reflexivity|]. destruct (columns c); [contradiction|reflexivity].
  - destruct (clean_result_cases d0 c Hres)
      as (series & parsed & i & Hseries & Hparsed & Hi & Hcols & Hc).
    unfold has_column in Hcountry.
    destruct (get_loc "Country_Region" (columns d0)); [discriminate|].
    now rewrite Hc.
Qed.

(** X1.  The rows of the table the cleaner returns are the complete US rows
    of its input, one for one: there are as many, and each returned row
    agrees with a complete US input row on every column that is neither
    Last_Update nor a coordinate. *)
Theorem clean_data_keeps_complete_us_rows (df : ref) (w w' : World) (out : ref) :
  df < length (heap w) ->
  well_formed (nth df (heap w) empty_frame) ->
  has_column "Country_Region" (nth df (heap w) empty_frame) = true ->
  clean_data convert_scalar df w = (Return out, w') ->
  let d0 := nth df (heap w) empty_frame in
  let c := nth out (heap w') empty_frame in
  length (rows c)
  = length (filter (fun r => complete r && us_row (columns d0) r) (rows d0))
  /\ (forall r, In r (rows c) ->
       exists r1, In r1 (rows d0) /\ complete r1 = true
                  /\ us_row (columns d0) r1 = true
                  /\ forall label, label <> "Last_Update" ->
                                   is_coordinate label = false ->
                                   row_get (columns c) r label
                                   = row_get (columns d0) r1 label).
Proof.
  intros Hlive Hwf Hcountry Hrun d0 c.
  pose proof (clean_data_returned df w w' out Hlive Hrun) as Hres.
  split.
  - now apply clean_result_row_count.
  - intros r Hr. now apply clean_result_row_origin.
Qed.

(** X2.  The columns of the table the cleaner returns are those of its
    input, in their order, without Long_ and Lat; without Country_Region in
    the input there is no column at all. *)
Theorem clean_data_columns (df : ref) (w w' : World) (out : ref) :
  df < length (heap w) ->
  clean_data convert_scalar df w = (Return out, w') ->
  let d0 := nth df (heap w) empty_frame in
  columns (nth out (heap w') empty_frame)
  = if has_column "Country_Region" d0
    then filter (fun label => negb (is_coordinate label)) (columns d0)
    else [].
Proof.
  intros Hlive Hrun d0.
  pose proof (clean_data_returned df w w' out Hlive Hrun) as Hres. fold d0 in Hres.
  destruct (clean_result_cases d0 _ Hres)
    as (series & parsed & i & Hseries & Hparsed & Hi & Hcols & Hc).
  unfold has_column.
  destruct (get_loc "Country_Region" (columns d0)); rewrite Hc; [|reflexivity].
  unfold us_rows, drop_columns, boolean_index. cbn [columns]. now rewrite Hcols.
Qed.

(** X3.  Whatever its outcome, the cleaner touches no table but the one it
    was given, creates at most one new table, writes no file and shows
    nothing. *)
Theorem clean_data_frame (df : ref) (w : World) :
  df < length (heap w) ->
  let w' := snd (clean_data convert_scalar df w) in
  (forall r, r < length (heap w) -> r <> df ->
             nth r (heap w') empty_frame = nth r (heap w) empty_frame)
  /\ length (heap w) <= length (heap w') <= S (length (heap w))
  /\ files w' = files w
  /\ shown w' = shown w
  /\ calls w' = calls w ++ [Cleaner].
Proof.
  intros Hlive w'. unfold w'. rewrite clean_data_run by assumption. cbv zeta.
  assert (Hkeep : forall d x r, r < length (heap w) -> r <> df ->
            nth r (update df d (heap w) ++ [x]) empty_frame = nth r (heap w) empty_frame).
  { intros d x r Hr Hne. rewrite nth_old by now rewrite length_update.
    now apply nth_update_other. }
  destruct (getitem (dropna _) "Last_Update") as [series|]; cbn [snd heap files shown calls].
  2:{ rewrite length_update. repeat split; auto. intros; now apply nth_update_other. }
  destruct (to_datetime convert_scalar series) as [parsed|];
    cbn [snd heap files shown calls].
  2:{ rewrite length_update. repeat split; auto. intros; now apply nth_update_other. }
  destruct (getitem (converted _ parsed) "Country_Region");
    cbn [snd heap files shown calls]; rewrite length_app, length_update; cbn [length];
    repeat split; auto; lia.
Qed.

Lemma dropna_idempotent (d : DataFrame) : dropna (dropna d) = dropna d.
Proof.
  unfold dropna. cbn [columns rows]. f_equal.
  apply filter_all. apply forallb_forall. intros r Hr.
  now apply filter_In in Hr.
Qed.

Lemma clean_result_dropna (d0 : DataFrame) :
  clean_result convert_scalar (dropna d0) = clean_result convert_scalar d0.
Proof.
  unfold clean_result, converted. now rewrite dropna_idempotent.
Qed.

(** X4.  Rows with a missing value have no part in the result: on the table
    without them the cleaner returns the same table or raises the same
    exception, whatever those rows held (an unreadable timestamp
    included). *)
Theorem clean_data_ignores_incomplete_rows (df df2 : ref) (w w2 : World) :
  df < length (heap w) ->
  df2 < length (heap w2) ->
  nth df2 (heap w2) empty_frame = dropna (nth df (heap w) empty_frame) ->
  match fst (clean_data convert_scalar df w), fst (clean_data convert_scalar df2 w2) with
  | Return out, Return out2 =>
      nth out (heap (snd (clean_data convert_scalar df w))) empty_frame
      = nth out2 (heap (snd (clean_data convert_scalar df2 w2))) empty_frame
  | Raise e, Raise e2 => e = e2
  | _, _ => False
  end.
Proof.
  intros Hlive Hlive2 Hsame.
  pose proof (clean_data_result df w Hlive) as H1.
  pose proof (clean_data_result df2 w2 Hlive2) as H2.
  rewrite Hsame, clean_result_dropna in H2.
  destruct (clean_result convert_scalar (nth df (heap w) empty_frame)) as [c|e].
  - destruct H1 as [-> <-], H2 as [-> <-]. reflexivity.
  - now rewrite H1, H2.
Qed.

End Cleaner_more.

(** ** More about the analyzer *)

(** Reading back the column that was just assigned. *)
Lemma nth_set_nth_same (i : nat) (v : cell) (r : row) :
  i < length r -> nth i (set_nth i v r) NA = v.
Proof.
  revert i; induction r as [|c r IH]; intros [|i] H; simpl in *; try lia; auto.
  apply IH. lia.
Qed.

Lemma getitem_setitem (d : DataFrame) (label : string) (values : list cell) :
  well_formed d ->
  length values = length (rows d) ->
  getitem (setitem d label values) label = Some values.
Proof.
  intros [_ Hrect] Hlen. unfold getitem, setitem.
  destruct (get_loc label (columns d)) as [i|] eqn:Hi; cbn [columns rows].
  - rewrite Hi. f_equal. apply get_loc_lt in Hi.
    revert Hrect Hlen. generalize (rows d) as rs. intros rs. revert values.
    induction rs as [|r rs IH]; intros [|v vs] Hrect Hlen; simpl in *;
      try discriminate; [reflexivity|].
    inversion Hrect as [|? ? Hr Hrs]; subst.
    rewrite nth_set_nth_same by lia. f_equal. apply IH; auto.
  - rewrite (get_loc_last _ _ Hi). f_equal.
    revert Hrect Hlen. generalize (rows d) as rs. intros rs. revert values.
    induction rs as [|r rs IH]; intros [|v vs] Hrect Hlen; simpl in *;
      try discriminate; [reflexivity|].
    inversion Hrect as [|? ? Hr Hrs]; subst.
    replace (nth (length (columns d)) (r ++ [v]) NA) with v
      by (rewrite <- Hr, app_nth2, Nat.sub_diag by lia; reflexivity).
    f_equal. apply IH; auto.
Qed.

Lemma get_loc_app_old (label : string) (cols extra : list string) (k : nat) :
  get_loc label cols = Some k -> get_loc label (cols ++ extra) = Some k.
Proof.
  revert k; induction cols as [|c cs IH]; simpl; intros k; [discriminate|].
  destruct (String.eqb c label); [auto|].
  destruct (get_loc label cs) as [j|]; simpl; [|discriminate].
  intros [= <-]. now rewrite (IH j eq_refl).
Qed.

Lemma getitem_setitem_other (d : DataFrame) (label other : string) (values : list cell) :
  well_formed d ->
  length values = length (rows d) ->
  other <> label ->
  has_column other d = true ->
  getitem (setitem d label values) other = getitem d other.
Proof.
  intros [_ Hrect] Hlen Hne Hhas. unfold has_column in Hhas. unfold getitem, setitem.
  destruct (get_loc other (columns d)) as [k|] eqn:Hk; [|discriminate].
  destruct (get_loc label (columns d)) as [i|] eqn:Hi; cbn [columns rows].
  - rewrite Hk. f_equal.
    assert (Hki : k <> i).
    { intros ->. apply Hne. exact (get_loc_inj _ _ _ _ Hk Hi). }
    revert Hlen. generalize (rows d) as rs. intros rs. revert values.
    induction rs as [|r rs IH]; intros [|v vs] Hlen; simpl in *;
      try discriminate; [reflexivity|].
    rewrite nth_set_nth_other by assumption. f_equal. apply IH. now injection Hlen.
  - rewrite (get_loc_app_old _ _ _ _ Hk). f_equal. apply get_loc_lt in Hk.
    revert Hrect Hlen. generalize (rows d) as rs. intros rs. revert values.
    induction rs as [|r rs IH]; intros [|v vs] Hrect Hlen; simpl in *;
      try discriminate; [reflexivity|].
    inversion Hrect as [|? ? Hr Hrs]; subst.
    rewrite app_nth1 by lia. f_equal. apply IH; auto.
Qed.

Section Analyzer_more.

Variable rnd : Q -> Q.

Lemma summary_step_with_column (d : DataFrame) (other : string) :
  has_column other d = true -> other <> "Province_State" ->
  summary_step d
  = Return (if has_column "Province_State" d then [PrintedSummary d] else []).
Proof.
  intros Hhas Hne. unfold summary_step.
  rewrite (groupby_describe_other d "Province_State" other Hhas Hne).
  now destruct (has_column "Province_State" d).
Qed.

(** One run of [analyze_data] on a live reference, by cases on the table. *)
Lemma analyze_data_run (df : ref) (w : World) :
  df < length (heap w) ->
  let d := nth df (heap w) empty_frame in
  analyze_data rnd df w =
  if empty d then
    (Return tt,
     mkWorld (heap w) (log w ++ [no_data_message]) (files w) (shown w)
             (calls w ++ [Analyzer]))
  else
    match summary_step d with
    | Raise e =>
        (Raise e,
         mkWorld (heap w) (log w) (files w) (shown w) (calls w ++ [Analyzer]))
    | Return printed =>
        if has_column "Deaths" d && has_column "Confirmed" d then
          match apply_rows (case_fatality_ratio rnd (columns d)) (rows d) with
          | Raise e =>
              (Raise e,
               mkWorld (heap w) (log w) (files w) (shown w ++ printed)
                       (calls w ++ [Analyzer]))
          | Return ratio =>
              let d' := setitem d "Case_Fatality_Ratio" ratio in
              match getitem d' "Case_Fatality_Ratio" with
              | Some series =>
                  (Return tt,
                   mkWorld (update df d' (heap w)) (log w) (files w)
                           ((shown w ++ printed) ++ [Histogram series; Heatmap d'])
                           (calls w ++ [Analyzer]))
              | None =>
                  (Raise (KeyError "Case_Fatality_Ratio"),
                   mkWorld (update df d' (heap w)) (log w) (files w)
                           (shown w ++ printed) (calls w ++ [Analyzer]))
              end
          end
        else
          (Return tt,
           mkWorld (heap w) (log w) (files w) (shown w ++ printed)
                   (calls w ++ [Analyzer]))
    end.
Proof.
  intros Hlive d. unfold analyze_data, summary_step.
  rewrite run_enter, run_deref. cbn [heap]. fold d.
  destruct (empty d); [reflexivity|].
  destruct (has_column "Province_State" d);
    [destruct (groupby_describe d "Province_State") as [summary|e]|];
    step; try reflexivity;
    (destruct (_ && _); [|now rewrite ?app_nil_r]);
    (destruct (apply_rows _ _) as [ratio|e]; step; [|now rewrite ?app_nil_r]);
    rewrite nth_update by assumption;
    (destruct (getitem _ "Case_Fatality_Ratio") as [series|]; step;
     [ unfold plot_case_fatality_ratio, plot_correlation_matrix; step;
       rewrite nth_update by assumption;
       unfold show; cbn [heap log files shown calls];
       rewrite ?app_nil_r, <- ?app_assoc; reflexivity
     | now rewrite ?app_nil_r ]).
Qed.

(** With both count columns present the lambda raises nothing but
    TypeError. *)
Lemma lambda_raises_type_error (cols : list string) (r : row) (e : exn) :
  get_loc "Deaths" cols <> None ->
  get_loc "Confirmed" cols <> None ->
  case_fatality_ratio rnd cols r = Raise e ->
  exists msg, e = TypeError msg.
Proof.
  intros Hd Hc. unfold case_fatality_ratio, row_get.
  destruct (get_loc "Confirmed" cols) as [i|]; [|contradiction].
  destruct (get_loc "Deaths" cols) as [j|]; [|contradiction].
  destruct (greater_than_zero (nth i r NA)) as [[|]|];
    try discriminate; [|intros [= <-]; eauto].
  destruct (as_float (nth j r NA)), (as_float (nth i r NA));
    try discriminate; intros [= <-]; eauto.
Qed.

Lemma lambda_on_text (cols : list string) (r : row) :
  text_in_counts cols r ->
  exists e, case_fatality_ratio rnd cols r = Raise e.
Proof.
  unfold case_fatality_ratio.
  intros [(c & Hc & Hnan) | (c & q & d & Hc & Hq & Hpos & Hd & Hnan)]; rewrite Hc.
  - destruct c; try discriminate; cbn [greater_than_zero]; eauto.
  - assert (Htest : Qle_bool q 0 = false).
    { destruct (Qle_bool q 0) eqn:E; [|reflexivity].
      apply Qle_bool_iff in E. exfalso. exact (Qlt_not_le _ _ Hpos E). }
    rewrite (greater_than_zero_number c q Hq), Htest, Hd. cbn [negb].
    destruct d; try discriminate; cbn [as_float]; eauto.
Qed.

(** [apply] stops at the first row on which the function raises. *)
Lemma apply_rows_raises (f : row -> outcome cell) (rs : list row) (r : row) (e0 : exn) :
  In r rs -> f r = Raise e0 ->
  exists r' e, In r' rs /\ f r' = Raise e /\ apply_rows f rs = Raise e.
Proof.
  induction rs as [|a rs IH]; simpl; [tauto|].
  intros Hin Hr. destruct (f a) as [v|e] eqn:Ha.
  - destruct Hin as [->|Hin]; [congruence|].
    destruct (IH Hin Hr) as (r' & e & Hr' & He & ->). exists r', e. auto.
  - exists a, e. auto.
Qed.

(** X5.  Without a ratio to compute the analyzer changes no table, writes no
    file and shows no figure.  On an empty table it logs one warning and
    returns.  On a table that is not empty but lacks Deaths or Confirmed it
    logs nothing: it returns, after printing the grouped summary when
    Province_State is a column, provided some column besides Province_State
    exists; when Province_State is the only column, [describe] has nothing
    to describe and the analyzer raises ValueError. *)
Theorem analyze_data_without_analysis (df : ref) (w : World) :
  df < length (heap w) ->
  let d := nth df (heap w) empty_frame in
  (empty d = true ->
   analyze_data rnd df w =
   (Return tt,
    mkWorld (heap w) (log w ++ [no_data_message]) (files w) (shown w)
            (calls w ++ [Analyzer])))
  /\ (forall other,
        empty d = false ->
        has_column "Deaths" d && has_column "Confirmed" d = false ->
        has_column other d = true -> other <> "Province_State" ->
        analyze_data rnd df w =
        (Return tt,
         mkWorld (heap w) (log w) (files w) (with_summary d (shown w))
                 (calls w ++ [Analyzer])))
  /\ (empty d = false ->
      columns d = ["Province_State"] ->
      analyze_data rnd df w =
      (Raise nothing_to_describe,
       mkWorld (heap w) (log w) (files w) (shown w) (calls w ++ [Analyzer]))).
Proof.
  intros Hlive d. repeat split.
  - intros Hempty. rewrite analyze_data_run by assumption. cbv zeta. fold d.
    now rewrite Hempty.
  - intros other Hfull Hcounts Hother Hne.
    rewrite analyze_data_run by assumption. cbv zeta. fold d.
    now rewrite Hfull, (summary_step_with_column d other Hother Hne), Hcounts.
  - intros Hfull Hcols. rewrite analyze_data_run by assumption. cbv zeta. fold d.
    rewrite Hfull. unfold summary_step, has_column, groupby_describe.
    rewrite Hcols. reflexivity.
Qed.

(** X6.  When a row holds text where the ratio needs a number, the analyzer
    raises TypeError: the table is left as it was, without a
    Case_Fatality_Ratio column from this call, and no figure is shown. *)
Theorem analyze_data_type_error (df : ref) (w : World) (r : row) :
  df < length (heap w) ->
  let d := nth df (heap w) empty_frame in
  has_column "Deaths" d = true ->
  has_column "Confirmed" d = true ->
  In r (rows d) ->
  text_in_counts (columns d) r ->
  exists msg,
    analyze_data rnd df w =
    (Raise (TypeError msg),
     mkWorld (heap w) (log w) (files w) (with_summary d (shown w))
             (calls w ++ [Analyzer])).
Proof.
  intros Hlive d Hdeaths Hconfirmed Hin Htext.
  rewrite analyze_data_run by assumption. cbv zeta. fold d.
  assert (Hfull : empty d = false).
  { unfold empty. unfold has_column in Hdeaths.
    destruct (rows d); [contradiction|].
    destruct (columns d); [discriminate|reflexivity]. }
  rewrite Hfull, (summary_step_with_column d "Deaths" Hdeaths) by discriminate.
  rewrite Hdeaths, Hconfirmed. cbn [andb].
  destruct (lambda_on_text (columns d) r Htext) as [e0 He0].
  destruct (apply_rows_raises _ _ r e0 Hin He0) as (r' & e & _ & He & ->).
  unfold has_column in Hdeaths, Hconfirmed.
  destruct (lambda_raises_type_error (columns d) r' e) as [msg ->]; auto.
  - destruct (get_loc "Deaths" (columns d)); congruence.
  - destruct (get_loc "Confirmed" (columns d)); congruence.
  - now exists msg.
Qed.

End Analyzer_more.

Section Analyzer_counts.

Variable rnd : Q -> Q.
Hypothesis rnd_monotone : forall x y : Q, (x <= y)%Q -> (rnd x <= rnd y)%Q.
Hypothesis rnd_0 : (rnd 0 == 0)%Q.
Hypothesis rnd_1 : (rnd 1 == 1)%Q.
Hypothesis rnd_100 : (rnd 100 == 100)%Q.

(** X7.  On a table that is not empty and whose rows all hold finite
    counts (integers at most 2^53 in magnitude) with
    confirmed >= deaths >= 0, the analyzer returns and the table it was
    given now holds a Case_Fatality_Ratio column with one value per row,
    each in [0, 100]; every other column reads as before, and nothing is
    logged. *)
Theorem analyze_data_on_counts (df : ref) (w : World) :
  df < length (heap w) ->
  let d := nth df (heap w) empty_frame in
  well_formed d ->
  empty d = false ->
  has_column "Deaths" d = true ->
  has_column "Confirmed" d = true ->
  Forall (counts_row (columns d)) (rows d) ->
  exists w' ratio,
    analyze_data rnd df w = (Return tt, w')
    /\ getitem (nth df (heap w') empty_frame) "Case_Fatality_Ratio" = Some ratio
    /\ length ratio = length (rows d)
    /\ Forall percentage ratio
    /\ (forall label, label <> "Case_Fatality_Ratio" -> has_column label d = true ->
                      getitem (nth df (heap w') empty_frame) label = getitem d label)
    /\ log w' = log w.
Proof.
  intros Hlive d Hwf Hfull Hdeaths Hconfirmed Hcounts.
  destruct (ratio_column_in_range rnd rnd_monotone rnd_0 rnd_1 rnd_100
              (columns d) (rows d) Hcounts) as (ratio & Hratio & Hlen & Hall).
  rewrite analyze_data_run by assumption. cbv zeta. fold d.
  rewrite Hfull, (summary_step_with_column d "Deaths" Hdeaths) by discriminate.
  rewrite Hdeaths, Hconfirmed, Hratio. cbn [andb].
  rewrite (getitem_setitem d _ ratio Hwf Hlen).
  eexists. exists ratio. split; [reflexivity|]. cbn [heap log].
  rewrite nth_update by assumption.
  rewrite (getitem_setitem d _ ratio Hwf Hlen). repeat split; auto.
  intros label Hne Hhas. now apply getitem_setitem_other.
Qed.



End Analyzer_counts.

(** ** More about the entry point *)

Lemma string_app_inv_head (s x y : string) :
  (s ++ x = s ++ y)%string -> x = y.
Proof.
  induction s as [|a s IH]; simpl; [auto|]. intros [= H]. auto.
Qed.

Lemma warnings_app (w : World) (h : list DataFrame) (l : list (level * string))
      (f : list (string * DataFrame)) (s : list event) (c : list stage) :
  warnings (mkWorld h (log w ++ l) f s c) = warnings w ++ map snd (filter is_warning l).
Proof. unfold warnings; cbn [log]. now rewrite filter_app, map_app. Qed.

Section Run_more.

Variable read_csv : string -> read_result.
Variable to_csv : DataFrame -> string -> option exn.
Variable convert_scalar : cell -> option cell.
Variable rnd : Q -> Q.
Variable script_dir : string.

(** The world the cleaner leaves, in terms of [clean_result]. *)
Lemma clean_data_world (df : ref) (w : World) :
  df < length (heap w) ->
  let d0 := nth df (heap w) empty_frame in
  clean_data convert_scalar df w =
  (match clean_result convert_scalar d0 with
   | Return _ => Return (length (heap w))
   | Raise e => Raise e
   end,
   mkWorld (update df (left_behind convert_scalar d0) (heap w)
            ++ match clean_result convert_scalar d0 with
               | Return c => [c]
               | Raise _ => []
               end)
           (log w ++ clean_log convert_scalar d0)
           (files w) (shown w) (calls w ++ [Cleaner])).
Proof.
  intros Hlive d0. rewrite clean_data_run by assumption. cbv zeta. fold d0.
  unfold clean_log, clean_result, left_behind.
  destruct (getitem (dropna d0) "Last_Update") as [series|] eqn:Hseries;
    [|now rewrite !app_nil_r].
  destruct (to_datetime convert_scalar series) as [parsed|]; [|now rewrite !app_nil_r].
  replace (has_column "Country_Region" d0)
    with (has_column "Country_Region" (converted d0 parsed))
    by (unfold has_column; now rewrite (columns_converted d0 series parsed Hseries)).
  unfold has_column, getitem.
  destruct (get_loc "Country_Region" (columns (converted d0 parsed))); reflexivity.
Qed.

(** The entry point once the loader returned the table [d0]. *)
Lemma main_after_loading (w : World) (d0 : DataFrame) :
  read_csv (csv_file_path script_dir) = ReadOk d0 ->
  main read_csv to_csv convert_scalar rnd script_dir w =
  match clean_result convert_scalar d0 with
  | Raise e =>
      (Raise e,
       mkWorld (heap w ++ [left_behind convert_scalar d0])
               (loaded_log script_dir w) (files w) (shown w)
               (calls w ++ [Loader; Cleaner]))
  | Return c =>
      let w2 := mkWorld (heap w ++ [left_behind convert_scalar d0; c])
                        (loaded_log script_dir w ++ clean_log convert_scalar d0)
                        (files w) (shown w) (calls w ++ [Loader; Cleaner]) in
      if empty c then
        (Return tt,
         mkWorld (heap w2) (log w2 ++ [empty_result_message]) (files w2) (shown w2)
                 (calls w2))
      else
        analyze_data rnd (S (length (heap w)))
          (snd (save_cleaned_data to_csv (S (length (heap w)))
                  (processed_file_path script_dir) w2))
  end.
Proof.
  intros Hread.
  destruct (load_then_clean read_csv script_dir w d0 Hread)
    as (w1 & Hload & Hlive & Hd0 & Hheap & Hlog & Hfiles & Hshown & Hcalls).
  rewrite main_run, Hload, clean_data_world by assumption. cbv zeta.
  rewrite Hd0, Hheap, update_fresh, Hlog, Hfiles, Hshown, Hcalls.
  unfold loaded_log, started, clean_log; cbn [log].
  destruct (clean_result convert_scalar d0) as [c|e].
  - cbn [heap log files shown calls].
    rewrite length_app, Nat.add_1_r. cbn [length].
    replace (nth (S (length (heap w)))
                 ((heap w ++ [left_behind convert_scalar d0]) ++ [c]) empty_frame)
      with c.
    2:{ symmetry. rewrite <- (nth_fresh (heap w ++ [left_behind convert_scalar d0]) c) at 2.
        f_equal. now rewrite length_app, Nat.add_1_r. }
    rewrite <- !app_assoc. cbn [app].
    destruct (empty c); cbn [negb]; reflexivity.
  - rewrite !app_nil_r, <- !app_assoc. reflexivity.
Qed.

(** On a table that is not empty the analyzer logs nothing, writes nothing
    and leaves the other tables alone, however it ends. *)
Lemma analyze_data_effects (df : ref) (w : World) :
  df < length (heap w) ->
  empty (nth df (heap w) empty_frame) = false ->
  let w' := snd (analyze_data rnd df w) in
  log w' = log w
  /\ files w' = files w
  /\ calls w' = calls w ++ [Analyzer]
  /\ forall r, r <> df -> nth r (heap w') empty_frame = nth r (heap w) empty_frame.
Proof.
  intros Hlive Hfull w'. unfold w'.
  rewrite analyze_data_run by assumption. cbv zeta. rewrite Hfull.
  destruct (summary_step _) as [printed|e]; [|now cbn].
  destruct (_ && _); [|now cbn].
  destruct (apply_rows _ _) as [ratio|e]; [|now cbn].
  destruct (getitem _ "Case_Fatality_Ratio"); cbn [snd heap log files calls];
    repeat split; intros; now apply nth_update_other.
Qed.

(** The input and the output path of a run differ, wherever the script
    lies. *)
Lemma paths_differ : processed_file_path script_dir <> csv_file_path script_dir.
Proof.
  unfold processed_file_path, csv_file_path, os_path_join at 1 3.
  destruct (os_path_join script_dir "..") as [|a s] eqn:E; [discriminate|].
  destruct (ends_with_slash (String a s)); intros H;
    apply string_app_inv_head in H; discriminate.
Qed.

(** What every run leaves in the log and on the disk. *)
Lemma main_footprint (w : World) :
  let w' := snd (main read_csv to_csv convert_scalar rnd script_dir w) in
  warnings w' = warnings w ++ [snd single_file_message]
  /\ (files w' = files w
      \/ exists c, files w' = files w ++ [(processed_file_path script_dir, c)]).
Proof.
  intros w'. unfold w'.
  destruct (read_csv (csv_file_path script_dir)) as [d0|e] eqn:Hread.
  - rewrite (main_after_loading w d0 Hread).
    assert (Hquiet : filter is_warning (clean_log convert_scalar d0) = []).
    { unfold clean_log. destruct (clean_result convert_scalar d0); [|reflexivity].
      destruct (has_column "Country_Region" d0); reflexivity. }
    destruct (clean_result convert_scalar d0) as [c|e] eqn:Hres.
    + cbv zeta. destruct (empty c) eqn:Hempty.
      * cbn [snd heap log files shown calls]. split; [|now left].
        unfold loaded_log. rewrite <- !app_assoc, warnings_app, !filter_app, Hquiet.
        reflexivity.
      * rewrite save_cleaned_data_run. cbn [heap].
        assert (Hc : nth (S (length (heap w)))
                         (heap w ++ [left_behind convert_scalar d0; c]) empty_frame = c).
        { rewrite app_nth2 by lia.
          replace (S (length (heap w)) - length (heap w)) with 1 by lia. reflexivity. }
        rewrite Hc.
        destruct (to_csv c (processed_file_path script_dir)) as [e|]; cbn [snd];
          match goal with
          | |- context [analyze_data rnd ?r ?w3] =>
              destruct (analyze_data_effects r w3) as (Hlog & Hfiles & _);
              [ cbn [heap]; rewrite length_app; cbn; lia
              | cbn [heap]; now rewrite Hc
              | cbv zeta in Hlog, Hfiles; unfold warnings; rewrite Hlog, Hfiles ]
          end; cbn [log files]; unfold loaded_log;
          rewrite <- !app_assoc, !filter_app, Hquiet, !map_app;
          (split; [reflexivity|]); [now left | right; now exists c].
    + cbn [snd log files]. split; [|now left].
      unfold loaded_log. now rewrite warnings_app.
  - rewrite main_run, load_data_run, Hread. cbn [snd log files started].
    split; [|now left].
    rewrite <- !app_assoc, warnings_app. reflexivity.
Qed.

(** X9.  A run writes at most one file, the processed CSV, and never to the
    path it reads from: the two paths differ wherever the script lies. *)
Theorem main_writes_only_the_processed_file (w : World) :
  let w' := snd (main read_csv to_csv convert_scalar rnd script_dir w) in
  (files w' = files w
   \/ exists c, files w' = files w ++ [(processed_file_path script_dir, c)])
  /\ String.eqb (processed_file_path script_dir) (csv_file_path script_dir) = false.
Proof.
  intros w'. split.
  - exact (proj2 (main_footprint w)).
  - apply String.eqb_neq. exact paths_differ.
Qed.

(** X10.  The only warning a run logs is the opening one: the entry point
    calls the analyzer on tables that are not empty, so the analyzer's own
    warning about missing data is never issued by a run. *)
Theorem main_logs_one_warning (w : World) :
  warnings (snd (main read_csv to_csv convert_scalar rnd script_dir w))
  = warnings w ++ ["Running analysis on single file only"].
Proof. exact (proj1 (main_footprint w)). Qed.

(** X11.  A run whose input cleans to a table that is not empty, and whose
    write succeeds, goes through all four stages without logging an error.
    The file holds the cleaned table as the cleaner returned it, that is
    before the analyzer adds its column; the raw table the loader built is
    left as the cleaner rewrote it. *)
Theorem main_writes_the_cleaned_table (w : World) (d0 c : DataFrame) :
  read_csv (csv_file_path script_dir) = ReadOk d0 ->
  clean_result convert_scalar d0 = Return c ->
  empty c = false ->
  to_csv c (processed_file_path script_dir) = None ->
  let w' := snd (main read_csv to_csv convert_scalar rnd script_dir w) in
  files w' = files w ++ [(processed_file_path script_dir, c)]
  /\ calls w' = calls w ++ [Loader; Cleaner; Persister; Analyzer]
  /\ log w' = loaded_log script_dir w
              ++ [columns_message (left_behind convert_scalar d0);
                  saved_message (processed_file_path script_dir)]
  /\ errors w' = errors w
  /\ nth (length (heap w)) (heap w') empty_frame = left_behind convert_scalar d0.
Proof.
  intros Hread Hres Hfull Hwrite w'. unfold w'.
  rewrite (main_after_loading w d0 Hread), Hres. cbv zeta. rewrite Hfull.
  assert (Hcountry : has_column "Country_Region" d0 = true).
  { pose proof (clean_result_empty convert_scalar d0 c Hres) as H.
    rewrite Hfull in H. destruct (has_column "Country_Region" d0); [reflexivity|].
    discriminate. }
  assert (Hc : nth (S (length (heap w)))
                   (heap w ++ [left_behind convert_scalar d0; c]) empty_frame = c).
  { rewrite app_nth2 by lia.
    replace (S (length (heap w)) - length (heap w)) with 1 by lia. reflexivity. }
  rewrite save_cleaned_data_run. cbn [heap]. rewrite Hc, Hwrite. cbn [snd].
  match goal with
  | |- context [analyze_data rnd ?r ?w3] =>
      destruct (analyze_data_effects r w3) as (Hlog & Hfiles & Hcalls & Hheap);
      [ cbn [heap]; rewrite length_app; cbn; lia
      | cbn [heap]; now rewrite Hc
      | cbv zeta in Hlog, Hfiles, Hcalls, Hheap ]
  end.
  unfold errors. rewrite Hlog, Hfiles, Hcalls, Hheap by lia.
  cbn [heap log files calls]. unfold clean_log. rewrite Hres, Hcountry.
  rewrite <- !app_assoc. cbn [app]. repeat split.
  - unfold loaded_log. rewrite <- !app_assoc, !filter_app, map_app. cbn.
    now rewrite app_nil_r.
  - rewrite app_nth2, Nat.sub_diag by lia. reflexivity.
Qed.

(** X12.  When the input has Country_Region but no row that is both complete
    and US, the cleaner returns a table without rows and the run stops
    there: nothing is written or shown, the persister and the analyzer are
    not called, and one error is logged. *)
Theorem main_without_us_rows (w : World) (d0 c : DataFrame) :
  read_csv (csv_file_path script_dir) = ReadOk d0 ->
  clean_result convert_scalar d0 = Return c ->
  has_column "Country_Region" d0 = true ->
  forallb (fun r => negb (complete r && us_row (columns d0) r)) (rows d0) = true ->
  rows c = []
  /\ main read_csv to_csv convert_scalar rnd script_dir w =
     (Return tt,
      mkWorld (heap w ++ [left_behind convert_scalar d0; c])
              (loaded_log script_dir w
               ++ [columns_message (left_behind convert_scalar d0);
                   empty_result_message])
              (files w) (shown w) (calls w ++ [Loader; Cleaner]))
  /\ errors (snd (main read_csv to_csv convert_scalar rnd script_dir w))
     = errors w ++ [snd empty_result_message].
Proof.
  intros Hread Hres Hcountry Hnone.
  assert (Hempty : empty c = true).
  { rewrite (clean_result_empty convert_scalar d0 c Hres), Hnone. apply orb_true_r. }
  assert (Hrows : rows c = []).
  { pose proof (clean_result_row_count convert_scalar d0 c Hcountry Hres) as Hlen.
    rewrite no_match_length in Hnone. apply Nat.eqb_eq in Hnone.
    rewrite Hnone in Hlen. now destruct (rows c). }
  rewrite (main_after_loading w d0 Hread), Hres. cbv zeta. rewrite Hempty.
  cbn [snd heap log files shown calls]. unfold clean_log. rewrite Hres, Hcountry.
  rewrite <- !app_assoc. cbn [app]. repeat split; [assumption|].
  unfold loaded_log. rewrite <- !app_assoc, errors_app. reflexivity.
Qed.

End Run_more.

(** ** The further statements on the sample environment *)

(** X1, on the sample report: one complete US row among three. *)
Lemma clean_data_keeps_complete_us_rows_witness :
  length (rows Sample.report_cleaned) = 1
  /\ (forall r, In r (rows Sample.report_cleaned) ->
       exists r1, In r1 (rows Sample.report) /\ complete r1 = true
                  /\ us_row (columns Sample.report) r1 = true
                  /\ forall label, label <> "Last_Update" ->
                                   is_coordinate label = false ->
                                   row_get (columns Sample.report_cleaned) r label
                                   = row_get (columns Sample.report) r1 label).
Proof.
  exact (clean_data_keeps_complete_us_rows Sample.convert_scalar 0
           (Sample.holding Sample.report)
           (snd (clean_data Sample.convert_scalar 0 (Sample.holding Sample.report)))
           1 (Nat.lt_0_succ 0) sample_report_well_formed eq_refl eq_refl).
Defined.

(** X2, on the sample report. *)
Lemma clean_data_columns_witness :
  columns Sample.report_cleaned
  = ["Province_State"; "Country_Region"; "Last_Update"; "Confirmed"; "Deaths"].
Proof.
  exact (clean_data_columns Sample.convert_scalar 0
           (Sample.holding Sample.report)
           (snd (clean_data Sample.convert_scalar 0 (Sample.holding Sample.report)))
           1 (Nat.lt_0_succ 0) eq_refl).
Defined.

(** X3, in a world with two tables: cleaning the first leaves the second. *)
Lemma clean_data_frame_witness :
  nth 1 (heap (snd (clean_data Sample.convert_scalar 0 Sample_more.two_tables)))
      empty_frame
  = Sample.report_no_country
  /\ length (heap (snd (clean_data Sample.convert_scalar 0 Sample_more.two_tables))) = 3
  /\ files (snd (clean_data Sample.convert_scalar 0 Sample_more.two_tables)) = []
  /\ shown (snd (clean_data Sample.convert_scalar 0 Sample_more.two_tables)) = [].
Proof.
  destruct (clean_data_frame Sample.convert_scalar 0 Sample_more.two_tables
              (Nat.lt_0_succ 1)) as (Hother & _ & Hfiles & Hshown & _).
  split; [|split; [reflexivity|split; assumption]].
  apply (Hother 1); [apply Nat.lt_succ_diag_r | discriminate].
Defined.

(** X4, on the report whose unreadable timestamp stands in an incomplete
    row. *)
Lemma clean_data_ignores_incomplete_rows_witness :
  nth 1 (heap (snd (clean_data Sample.convert_scalar 0
                      (Sample.holding Sample.report_bad_date_incomplete)))) empty_frame
  = nth 1 (heap (snd (clean_data Sample.convert_scalar 0
                        (Sample.holding (dropna Sample.report_bad_date_incomplete)))))
        empty_frame.
Proof.
  exact (clean_data_ignores_incomplete_rows Sample.convert_scalar 0 0
           (Sample.holding Sample.report_bad_date_incomplete)
           (Sample.holding (dropna Sample.report_bad_date_incomplete))
           (Nat.lt_0_succ 0) (Nat.lt_0_succ 0) eq_refl).
Defined.

(** X5, on a table without rows, on a table without Deaths and on a table
    with Province_State alone. *)
Lemma analyze_data_without_analysis_witness :
  analyze_data Sample.rnd 0 (Sample.holding Sample.only_last_update)
  = (Return tt,
     mkWorld [Sample.only_last_update] ([] ++ [no_data_message]) [] []
             ([] ++ [Analyzer]))
  /\ analyze_data Sample.rnd 0 (Sample.holding Sample_more.report_without_deaths)
     = (Return tt,
        mkWorld [Sample_more.report_without_deaths] [] []
                (with_summary Sample_more.report_without_deaths [])
                ([] ++ [Analyzer]))
  /\ analyze_data Sample.rnd 0 (Sample.holding Sample_states.only_states)
     = (Raise nothing_to_describe,
        mkWorld [Sample_states.only_states] [] [] [] ([] ++ [Analyzer])).
Proof.
  split; [|split].
  - exact (proj1 (analyze_data_without_analysis Sample.rnd 0
                    (Sample.holding Sample.only_last_update) (Nat.lt_0_succ 0))
                 eq_refl).
  - apply (proj1 (proj2 (analyze_data_without_analysis Sample.rnd 0
                           (Sample.holding Sample_more.report_without_deaths)
                           (Nat.lt_0_succ 0)))
                 "Confirmed"); [reflexivity | reflexivity | reflexivity | discriminate].
  - exact (proj2 (proj2 (analyze_data_without_analysis Sample.rnd 0
                           (Sample.holding Sample_states.only_states)
                           (Nat.lt_0_succ 0)))
                 eq_refl eq_refl).
Defined.

(** X6, on a report whose second row has text for Confirmed. *)
Lemma analyze_data_type_error_witness :
  exists msg,
    analyze_data Sample.rnd 0 (Sample.holding Sample_more.report_text_counts)
    = (Raise (TypeError msg),
       mkWorld [Sample_more.report_text_counts] [] []
               (with_summary Sample_more.report_text_counts []) ([] ++ [Analyzer])).
Proof.
  apply (analyze_data_type_error Sample.rnd 0
           (Sample.holding Sample_more.report_text_counts)
           [Str "Alaska"; Str "US"; Time 1609564953000000000; Str "n/a"; Int 1]
           (Nat.lt_0_succ 0) eq_refl eq_refl).
  - right; left; reflexivity.
  - left. exists (Str "n/a"). split; reflexivity.
Defined.

Lemma sample_report_cleaned_counts :
  Forall (counts_row (columns Sample.report_cleaned)) (rows Sample.report_cleaned).
Proof.
  constructor; [|constructor].
  exists (Int 100), (Int 5), (inject_Z 100), (inject_Z 5).
  repeat split; try reflexivity; discriminate.
Defined.

(** X7, on the cleaned sample report. *)
Lemma analyze_data_on_counts_witness :
  exists w' ratio,
    analyze_data Sample.rnd 0 (Sample.holding Sample.report_cleaned) = (Return tt, w')
    /\ getitem (nth 0 (heap w') empty_frame) "Case_Fatality_Ratio" = Some ratio
    /\ length ratio = 1
    /\ Forall percentage ratio
    /\ (forall label, label <> "Case_Fatality_Ratio" ->
                      has_column label Sample.report_cleaned = true ->
                      getitem (nth 0 (heap w') empty_frame) label
                      = getitem Sample.report_cleaned label)
    /\ log w' = [].
Proof.
  exact (analyze_data_on_counts Sample.rnd sample_rnd_monotone sample_rnd_0
           sample_rnd_1 sample_rnd_100 0 (Sample.holding Sample.report_cleaned)
           (Nat.lt_0_succ 0) sample_report_cleaned_well_formed eq_refl eq_refl eq_refl
           sample_report_cleaned_counts).
Defined.


(** The ratio of that row: 140. *)
Example case_fatality_ratio_above_100 :
  case_fatality_ratio Sample.rnd (columns Sample.report_cleaned)
    Sample_more.row_more_deaths
  = Return (Flt (140000000000 # 1000000000)).
Proof. reflexivity. Qed.

(** X11, on a disk that holds the sample report and accepts the write. *)
Lemma main_writes_the_cleaned_table_witness :
  files (snd (main (Sample.disk_with Sample.report) Sample.writable
                   Sample.convert_scalar Sample.rnd Sample.script_dir initial_world))
  = [] ++ [(processed_file_path Sample.script_dir, Sample.report_cleaned)]
  /\ calls (snd (main (Sample.disk_with Sample.report) Sample.writable
                      Sample.convert_scalar Sample.rnd Sample.script_dir initial_world))
     = [] ++ [Loader; Cleaner; Persister; Analyzer]
  /\ errors (snd (main (Sample.disk_with Sample.report) Sample.writable
                       Sample.convert_scalar Sample.rnd Sample.script_dir initial_world))
     = [].
Proof.
  destruct (main_writes_the_cleaned_table (Sample.disk_with Sample.report)
              Sample.writable Sample.convert_scalar Sample.rnd Sample.script_dir
              initial_world Sample.report Sample.report_cleaned
              eq_refl eq_refl eq_refl eq_refl) as (Hfiles & Hcalls & _ & Herrors & _).
  split; [exact Hfiles | split; [exact Hcalls | exact Herrors]].
Defined.

(** The table in memory after that run has the derived column; the file has
    not. *)
Example main_file_lacks_the_ratio :
  let w' := snd (main (Sample.disk_with Sample.report) Sample.writable
                      Sample.convert_scalar Sample.rnd Sample.script_dir initial_world) in
  has_column "Case_Fatality_Ratio" (nth 1 (heap w') empty_frame) = true
  /\ map (fun f => has_column "Case_Fatality_Ratio" (snd f)) (files w') = [false].
Proof. split; reflexivity. Qed.

(** X12, on a disk whose report has Canadian rows only. *)
Lemma main_without_us_rows_witness :
  errors (snd (main (Sample.disk_with Sample_more.report_canada) Sample.writable
                    Sample.convert_scalar Sample.rnd Sample.script_dir initial_world))
  = [] ++ [snd empty_result_message]
  /\ files (snd (main (Sample.disk_with Sample_more.report_canada) Sample.writable
                      Sample.convert_scalar Sample.rnd Sample.script_dir initial_world))
     = [].
Proof.
  destruct (main_without_us_rows (Sample.disk_with Sample_more.report_canada)
              Sample.writable Sample.convert_scalar Sample.rnd Sample.script_dir
              initial_world Sample_more.report_canada
              (mkDataFrame
                 ["Province_State"; "Country_Region"; "Last_Update"; "Confirmed"; "Deaths"]
                 [])
              eq_refl eq_refl eq_refl eq_refl) as (_ & Hmain & Herrors).
  split; [exact Herrors|]. rewrite Hmain. reflexivity.
Defined.
